(** * The image transform pipeline of [src/app/page.tsx]

    A shallow embedding of the three callbacks of the [ImageUploader]
    component, [cropImage], [resizeImage] and [processImage], together
    with the part of the component state they read and write.

    - JavaScript numbers are an interface [Number], instantiated by
      [binary64]: IEEE 754 doubles, the arithmetic the code runs on.
    - Promises are settled values ([Resolved], [Rejected]) or [Pending];
      an [async] function is a state transformer over the component
      state that returns one.
    - What the browser decides (whether a 2D context exists, whether
      [toBlob] hands back data, whether a [FileReader] succeeds) and what
      the [browser-image-compression] package returns are fields of an
      environment [Env].
    - The size of a canvas is an unsigned long: a number assigned to
      [canvas.width] or [canvas.height] is converted as the DOM does.
    - Pixels are not modelled: a canvas records the drawing calls made on
      it, and an encoded image records the canvas it was taken from. *)

From Stdlib Require Import Bool ZArith NArith List String Lia.
From Stdlib Require Import QArith Qpower Qabs Qfield Lqa.
From Stdlib Require Import Floats.
From Stdlib Require Uint63.
Import ListNotations.

Set Implicit Arguments.
Set Warnings "-inexact-float".

(** ** Numbers *)

Declare Scope js_scope.
Delimit Scope js_scope with js.

(** The operations on [number] that the three callbacks use. *)
Class Number (num : Type) : Type := {
  of_Z : Z -> num;              (* an integer literal *)
  nine_tenths : num;            (* the literal 0.9 *)
  div : num -> num -> num;      (* a / b *)
  mul : num -> num -> num;      (* a * b *)
  sub : num -> num -> num;      (* a - b *)
  gt : num -> num -> bool;      (* a > b *)
  Math_max : num -> num -> num; (* Math.max(a, b) *)
  to_unsigned_long : num -> Z   (* the conversion to [unsigned long] *)
}.

Infix "/" := div : js_scope.
Infix "*" := mul : js_scope.
Infix "-" := sub : js_scope.
Infix ">?" := gt (at level 70, no associativity) : js_scope.

(** *** IEEE 754 binary64, the [number] type of JavaScript *)

Module Binary64.

(** An integer as a number: the literals of the code, byte sizes and
    the size of a canvas read back.  All are below 2^63, where
    [of_uint63] rounds to the nearest double (and is exact below
    2^53). *)
Definition of_Z (z : Z) : float :=
  match z with
  | Z0 => 0%float
  | Zpos _ => PrimFloat.of_uint63 (Uint63.of_Z z)
  | Zneg p => PrimFloat.opp (PrimFloat.of_uint63 (Uint63.of_Z (Zpos p)))
  end.

(** [a > b]: false as soon as one side is NaN. *)
Definition gt (a b : float) : bool := PrimFloat.ltb b a.

Definition is_neg_zero (a : float) : bool :=
  PrimFloat.eqb a 0%float && PrimFloat.get_sign a.

(** [Math.max]: NaN if an argument is NaN, and +0 is larger than -0. *)
Definition Math_max (a b : float) : float :=
  if PrimFloat.is_nan a || PrimFloat.is_nan b then PrimFloat.nan
  else if PrimFloat.ltb a b then b
  else if PrimFloat.ltb b a then a
  else if is_neg_zero a then b else a.

(** A number that is neither NaN nor infinite and is above zero. *)
Definition positive_finite (a : float) : bool :=
  PrimFloat.ltb 0%float a && PrimFloat.ltb a PrimFloat.infinity.

(** One of the targets is zero, +0 or -0, whatever the other is. *)
Definition zero_target (width height : float) : Prop :=
  PrimFloat.is_zero width = true \/ PrimFloat.is_zero height = true.

(** The integer part of a number, rounding towards zero; 0 for NaN and
    the infinities.  A finite double is [m * 2^e], or its opposite. *)
Definition IntegerPart (a : float) : Z :=
  match Prim2SF a with
  | S754_finite s m e =>
      if s then (- Z.shiftl (Zpos m) e)%Z else Z.shiftl (Zpos m) e
  | _ => 0%Z
  end.

(** Web IDL's conversion of a number to [unsigned long]: the integer
    part, modulo 2^32. *)
Definition to_unsigned_long (a : float) : Z :=
  (IntegerPart a mod 2 ^ 32)%Z.

(** The rational a double stands for, when it is finite. *)
Definition exact_value (a : float) : option Q :=
  match Prim2SF a with
  | S754_zero _ => Some 0%Q
  | S754_finite s m e =>
      let n := if s then Zneg m else Zpos m in
      Some match e with
           | Zneg k => Qmake n (2 ^ k)
           | _ => inject_Z (n * 2 ^ e)
           end
  | _ => None
  end.

End Binary64.

#[export] Instance binary64 : Number float := {|
  of_Z := Binary64.of_Z;
  nine_tenths := 0.9%float;
  div := PrimFloat.div;
  mul := PrimFloat.mul;
  sub := PrimFloat.sub;
  gt := Binary64.gt;
  Math_max := Binary64.Math_max;
  to_unsigned_long := Binary64.to_unsigned_long
|}.

(** *** Doubles as rationals

    What is needed to say how far the result of an operation on doubles
    is from the result on the numbers they stand for. *)

(** 2 ^ e, for any integer e. *)
Definition pow2 (e : Z) : Q := Qpower 2 e.







(** ** Promises *)

(** Values a promise is rejected with. *)
Inductive Reason : Type :=
| Error (message : string)      (* new Error(message) *)
| ReaderErrorEvent              (* reader.onerror = reject *)
| ImageErrorEvent               (* img.onerror = reject *)
| CompressionError (message : string).

(** A promise, once the run is over. *)
Inductive Settled (A : Type) : Type :=
| Resolved (a : A)
| Rejected (reason : Reason)
| Pending.

Arguments Rejected {A} reason.
Arguments Pending {A}.

(** ** Asynchronous computations over a state [S] *)

Section Async.

Variable S : Type.

Definition Async (A : Type) : Type := S -> S * Settled A.

Definition resolve {A} (a : A) : Async A := fun st => (st, Resolved a).

Definition reject {A} (r : Reason) : Async A := fun st => (st, Rejected r).

Definition never {A} : Async A := fun st => (st, Pending).

(** [await m] followed by [k]. *)
Definition await {A B} (m : Async A) (k : A -> Async B) : Async B :=
  fun st =>
    match m st with
    | (st', Resolved a) => k a st'
    | (st', Rejected r) => (st', Rejected r)
    | (st', Pending) => (st', Pending)
    end.

(** [try { m } catch (error) { handler }] *)
Definition try_catch {A} (m : Async A) (handler : Reason -> Async A)
  : Async A :=
  fun st =>
    match m st with
    | (st', Rejected r) => handler r st'
    | other => other
    end.

(** A synchronous statement that changes the state. *)
Definition exec (f : S -> S) : Async unit :=
  fun st => (f st, Resolved tt).

End Async.

Arguments resolve {S A} a.
Arguments reject {S A} r.
Arguments never {S A}.

Notation "x <- m ;; k" := (await m (fun x => k))
  (at level 61, m at next level, right associativity) : js_scope.
Notation "m ;; k" := (await m (fun _ => k))
  (at level 61, right associativity) : js_scope.

(** ** Data model *)

(** The unit of a crop box of react-image-crop: '%' or 'px'. *)
Inductive CropUnit : Type := Percent | Px.

Section Model.

Variable num : Type.
Context {NUM : Number num}.

Local Open Scope js_scope.
Local Open Scope string_scope.

(** The fields of an [<img>] element that the code reads. *)
Record HTMLImageElement : Type := {
  naturalWidth : num;
  naturalHeight : num;
  img_width : num;      (* image.width, the displayed width *)
  img_height : num      (* image.height, the displayed height *)
}.

(** [Crop] of react-image-crop. *)
Record Crop : Type := {
  crop_unit : CropUnit;
  crop_x : num;
  crop_y : num;
  crop_width : num;
  crop_height : num
}.

(** Calls made on a 2D context, in source order. *)
Inductive DrawOp : Type :=
| FillRect (fillStyle : string) (x y w h : num)
| DrawImage (image : HTMLImageElement) (dx dy dWidth dHeight : num)
| DrawImageRegion (image : HTMLImageElement)
    (sx sy sWidth sHeight dx dy dWidth dHeight : num).

(** A canvas: its size in pixels, an unsigned long, and what has been
    drawn since its bitmap was last reset.  An empty [drawn] is a blank
    bitmap.  Drawing never throws. *)
Record Canvas : Type := {
  canvas_width : Z;
  canvas_height : Z;
  drawn : list DrawOp
}.

(** [document.createElement('canvas')]: 300 x 150 and blank. *)
Definition createCanvas : Canvas :=
  {| canvas_width := 300; canvas_height := 150; drawn := [] |}.

(** The size a canvas takes when the number [v] is assigned to
    [canvas.width] or [canvas.height]: [v] is converted to an unsigned
    long, and the attribute, which reflects a content attribute limited
    to 0 .. 2147483647, falls back to its default above that. *)
Definition canvas_dimension (default : Z) (v : num) : Z :=
  if (to_unsigned_long v <=? 2147483647)%Z then to_unsigned_long v
  else default.

(** Assigning either dimension resets the bitmap. *)
Definition set_width (w : num) (c : Canvas) : Canvas :=
  {| canvas_width := canvas_dimension 300 w;
     canvas_height := canvas_height c; drawn := [] |}.

Definition set_height (h : num) (c : Canvas) : Canvas :=
  {| canvas_width := canvas_width c;
     canvas_height := canvas_dimension 150 h; drawn := [] |}.

Definition draw (op : DrawOp) (c : Canvas) : Canvas :=
  {| canvas_width := canvas_width c;
     canvas_height := canvas_height c;
     drawn := drawn c ++ [op] |}.

(** What the bytes of a blob are: the encoding of a canvas at some
    quality, bytes that came from outside (the user's disk, the
    compression package) with the size they decode to when they are an
    image, or text. *)
Inductive Data : Type :=
| Encoded (c : Canvas) (quality : num)
| Foreign (decoded : option (num * num))
| Text (s : string).

Record Blob : Type := {
  blob_size : N;
  blob_type : string;
  blob_data : Data
}.

Record File : Type := {
  file_name : string;
  file_size : N;
  file_type : string;
  file_data : Data
}.

(** [new File([part], name, { type })].  A [null] part is stringified:
    the file then holds the four characters of "null". *)
Definition new_File (part : option Blob) (name type : string) : File :=
  match part with
  | Some blob =>
      {| file_name := name; file_size := blob_size blob;
         file_type := type; file_data := blob_data blob |}
  | None =>
      {| file_name := name; file_size := 4%N;
         file_type := type; file_data := Text "null" |}
  end.

(** The result of [FileReader.readAsDataURL]. *)
Record DataURL : Type := {
  url_type : string;
  url_data : Data
}.

Definition dataURL (f : File) : DataURL :=
  {| url_type := file_type f; url_data := file_data f |}.

(** Pixel size of the image some data decodes to, if it is one. *)
Definition decode (d : Data) : option (num * num) :=
  match d with
  | Encoded c _ => Some (of_Z (canvas_width c), of_Z (canvas_height c))
  | Foreign decoded => decoded
  | Text _ => None
  end.

(** A detached [<img>] that has loaded an image of size [w] x [h]. *)
Definition loaded_img (wh : num * num) : HTMLImageElement :=
  {| naturalWidth := fst wh; naturalHeight := snd wh;
     img_width := fst wh; img_height := snd wh |}.

(** Options of [imageCompression]. *)
Record Options : Type := {
  maxSizeMB : num;
  maxWidthOrHeight : num;
  useWebWorker : bool
}.

(** What the callbacks do that is visible outside them. *)
Inductive Event : Type :=
| ToBlob (c : Canvas) (type : string) (quality : num)
| ImageCompression (f : File) (o : Options)
| ConsoleError (message : string) (reason : Reason).

(** The environment of one run. *)
Record Env : Type := {
  crop_getContext : bool;       (* getContext('2d') on cropImage's canvas *)
  resize_getContext : bool;     (* getContext('2d') on the shared canvas *)
  toBlob_bytes : Canvas -> string -> num -> option N;
                                (* byte length of the blob, None for null *)
  imageCompression : File -> Options -> Settled File;
  readAsDataURL_loads : File -> bool
}.

(** The form of react-hook-form, field [cover_image]. *)
Record Form : Type := {
  cover_image : option File;
  cover_image_error : option string
}.

(** State of the component, and the log of events. *)
Record State : Type := {
  originalPreview : option DataURL;
  compressedPreview : option DataURL;
  originalSize : option N;
  compressedSize : option N;
  targetWidth : num;
  targetHeight : num;
  crop : Crop;
  completedCrop : option Crop;
  imgRef : option HTMLImageElement;
  canvasRef : Canvas;
  form : Form;
  events : list Event
}.

Definition initial_state : State :=
  {| originalPreview := None; compressedPreview := None;
     originalSize := None; compressedSize := None;
     targetWidth := of_Z 600; targetHeight := of_Z 400;
     crop := {| crop_unit := Percent; crop_x := of_Z 0; crop_y := of_Z 0;
                crop_width := of_Z 100; crop_height := of_Z 100 |};
     completedCrop := None; imgRef := None;
     canvasRef := createCanvas;
     form := {| cover_image := None; cover_image_error := None |};
     events := [] |}.

(** *** Setters *)

Definition setCompressedPreview (v : option DataURL) (st : State) : State :=
  {| originalPreview := originalPreview st; compressedPreview := v;
     originalSize := originalSize st; compressedSize := compressedSize st;
     targetWidth := targetWidth st; targetHeight := targetHeight st;
     crop := crop st; completedCrop := completedCrop st; imgRef := imgRef st;
     canvasRef := canvasRef st; form := form st; events := events st |}.

Definition setCompressedSize (v : option N) (st : State) : State :=
  {| originalPreview := originalPreview st;
     compressedPreview := compressedPreview st;
     originalSize := originalSize st; compressedSize := v;
     targetWidth := targetWidth st; targetHeight := targetHeight st;
     crop := crop st; completedCrop := completedCrop st; imgRef := imgRef st;
     canvasRef := canvasRef st; form := form st; events := events st |}.

Definition setTargetWidth (v : num) (st : State) : State :=
  {| originalPreview := originalPreview st;
     compressedPreview := compressedPreview st;
     originalSize := originalSize st; compressedSize := compressedSize st;
     targetWidth := v; targetHeight := targetHeight st;
     crop := crop st; completedCrop := completedCrop st; imgRef := imgRef st;
     canvasRef := canvasRef st; form := form st; events := events st |}.

Definition setTargetHeight (v : num) (st : State) : State :=
  {| originalPreview := originalPreview st;
     compressedPreview := compressedPreview st;
     originalSize := originalSize st; compressedSize := compressedSize st;
     targetWidth := targetWidth st; targetHeight := v;
     crop := crop st; completedCrop := completedCrop st; imgRef := imgRef st;
     canvasRef := canvasRef st; form := form st; events := events st |}.

Definition set_canvas (c : Canvas) (st : State) : State :=
  {| originalPreview := originalPreview st;
     compressedPreview := compressedPreview st;
     originalSize := originalSize st; compressedSize := compressedSize st;
     targetWidth := targetWidth st; targetHeight := targetHeight st;
     crop := crop st; completedCrop := completedCrop st; imgRef := imgRef st;
     canvasRef := c; form := form st; events := events st |}.

Definition set_form (f : Form) (st : State) : State :=
  {| originalPreview := originalPreview st;
     compressedPreview := compressedPreview st;
     originalSize := originalSize st; compressedSize := compressedSize st;
     targetWidth := targetWidth st; targetHeight := targetHeight st;
     crop := crop st; completedCrop := completedCrop st; imgRef := imgRef st;
     canvasRef := canvasRef st; form := f; events := events st |}.

Definition emit (e : Event) (st : State) : State :=
  {| originalPreview := originalPreview st;
     compressedPreview := compressedPreview st;
     originalSize := originalSize st; compressedSize := compressedSize st;
     targetWidth := targetWidth st; targetHeight := targetHeight st;
     crop := crop st; completedCrop := completedCrop st; imgRef := imgRef st;
     canvasRef := canvasRef st; form := form st;
     events := events st ++ [e] |}.

(** [form.setValue('cover_image', f)] *)
Definition form_setValue (f : File) (st : State) : State :=
  set_form {| cover_image := Some f;
              cover_image_error := cover_image_error (form st) |} st.

(** [form.clearErrors('cover_image')] *)
Definition form_clearErrors (st : State) : State :=
  set_form {| cover_image := cover_image (form st);
              cover_image_error := None |} st.

(** [form.resetField('cover_image')]: back to the default value, which
    is [undefined], and no error. *)
Definition form_resetField (st : State) : State :=
  set_form {| cover_image := None; cover_image_error := None |} st.

(** ** The callbacks *)

Variable env : Env.

(** [canvas.toBlob(callback, type, quality)]: the callback receives a
    blob holding the encoded bitmap, or [null]. *)
Definition blob_of (canvas : Canvas) (type : string) (quality : num)
  : option Blob :=
  option_map
    (fun n => {| blob_size := n; blob_type := type;
                 blob_data := Encoded canvas quality |})
    (toBlob_bytes env canvas type quality).

Definition toBlob (canvas : Canvas) (type : string) (quality : num)
  : Async State (option Blob) :=
  exec (emit (ToBlob canvas type quality)) ;;
  resolve (blob_of canvas type quality).

(** *** [cropImage] (lines 58-93) *)

Definition scaleX (image : HTMLImageElement) : num :=
  naturalWidth image / img_width image.

Definition scaleY (image : HTMLImageElement) : num :=
  naturalHeight image / img_height image.

(** The canvas of [cropImage] when [toBlob] is called on it. *)
Definition crop_canvas (image : HTMLImageElement) (crop : Crop) : Canvas :=
  let canvas := createCanvas in
  let canvas := set_width (crop_width crop) canvas in
  let canvas := set_height (crop_height crop) canvas in
  if crop_getContext env then
    draw (DrawImageRegion image
            (crop_x crop * scaleX image)
            (crop_y crop * scaleY image)
            (crop_width crop * scaleX image)
            (crop_height crop * scaleY image)
            (of_Z 0) (of_Z 0)
            (crop_width crop) (crop_height crop))
         canvas
  else canvas.

Definition cropImage (image : HTMLImageElement) (crop : Crop)
    (fileName : string) : Async State File :=
  blob <- toBlob (crop_canvas image crop) "image/jpeg" (of_Z 1) ;;
  match blob with
  | None => reject (Error "Canvas is empty")
  | Some _ => resolve (new_File blob fileName "image/jpeg")
  end.

(** *** [resizeImage] (lines 95-137) *)

Record Placement : Type := {
  drawWidth : num;
  drawHeight : num;
  offsetX : num;
  offsetY : num
}.

(** Lines 104-118. *)
Definition placement (img : HTMLImageElement) (width height : num)
  : Placement :=
  let imageAspectRatio := img_width img / img_height img in
  let targetAspectRatio := width / height in
  if imageAspectRatio >? targetAspectRatio then
    let drawHeight := width / imageAspectRatio in
    {| drawWidth := width; drawHeight := drawHeight;
       offsetX := of_Z 0; offsetY := (height - drawHeight) / of_Z 2 |}
  else
    let drawWidth := height * imageAspectRatio in
    {| drawWidth := drawWidth; drawHeight := height;
       offsetX := (width - drawWidth) / of_Z 2; offsetY := of_Z 0 |}.

(** Lines 120-125, on a context that exists. *)
Definition paint (img : HTMLImageElement) (width height : num)
    (canvas : Canvas) : Canvas :=
  let p := placement img width height in
  let canvas := set_width width canvas in
  let canvas := set_height height canvas in
  let canvas :=
    draw (FillRect "white" (of_Z 0) (of_Z 0) width height) canvas in
  draw (DrawImage img (offsetX p) (offsetY p) (drawWidth p) (drawHeight p))
       canvas.

(** [img.onload]: with no context, [ctx.fillStyle = 'white'] throws
    inside the handler, after the canvas has been resized, and the
    promise is never settled.  With one, [resolve(blob!)] hands on
    whatever [toBlob] gave, [null] included. *)
Definition img_onload (img : HTMLImageElement) (width height : num)
  : Async State (option Blob) :=
  fun st =>
    if resize_getContext env then
      let canvas := paint img width height (canvasRef st) in
      toBlob canvas "image/jpeg" nine_tenths (set_canvas canvas st)
    else
      never (set_canvas (set_height height (set_width width (canvasRef st)))
                        st).

Definition resizeImage (file : File) (width height : num)
  : Async State (option Blob) :=
  if readAsDataURL_loads env file then
    match decode (url_data (dataURL file)) with
    | Some size => img_onload (loaded_img size) width height
    | None => reject ImageErrorEvent          (* img.onerror = reject *)
    end
  else reject ReaderErrorEvent.               (* reader.onerror = reject *)

(** *** [processImage] (lines 139-174) *)

Definition compression_options (st : State) : Options :=
  {| maxSizeMB := of_Z 5;
     maxWidthOrHeight := Math_max (targetWidth st) (targetHeight st);
     useWebWorker := true |}.

(** [await imageCompression(file, options)] *)
Definition compress (file : File) (options : Options) : Async State File :=
  fun st =>
    (emit (ImageCompression file options) st,
     imageCompression env file options).

(** Lines 159-164: the reader's [onload] runs if the read succeeds;
    there is no [onerror]. *)
Definition show_result (resizedFile : File) : Async State unit :=
  if readAsDataURL_loads env resizedFile then
    exec (setCompressedPreview (Some (dataURL resizedFile))) ;;
    exec (setCompressedSize (Some (file_size resizedFile)))
  else resolve tt.

(** The body of the [try] block, with the values of [targetWidth] and
    [targetHeight] that the callback closed over. *)
Definition stages (image : HTMLImageElement) (completed : Crop)
    (file : File) (options : Options) (width height : num) : Async State unit :=
  croppedFile <- cropImage image completed (file_name file) ;;
  compressedFile <- compress croppedFile options ;;
  resizedBlob <- resizeImage compressedFile width height ;;
  let resizedFile := new_File resizedBlob (file_name file) "image/jpeg" in
  exec (form_setValue resizedFile) ;;
  exec form_clearErrors ;;
  show_result resizedFile.

(** The [catch] block. *)
Definition on_error (error : Reason) : Async State unit :=
  exec (emit (ConsoleError "Error processing image:" error)) ;;
  exec (setCompressedPreview None) ;;
  exec (setCompressedSize None) ;;
  exec form_resetField.

Definition processImage (file : File) : Async State unit :=
  fun st =>
    match completedCrop st, imgRef st with
    | Some completed, Some image =>
        try_catch
          (stages image completed file (compression_options st)
                  (targetWidth st) (targetHeight st))
          on_error st
    | _, _ => resolve tt st             (* return; *)
    end.

(** The previews, the sizes and the form are the same in two states. *)
Definition same_outputs (st st' : State) : Prop :=
  originalPreview st' = originalPreview st /\
  originalSize st' = originalSize st /\
  compressedPreview st' = compressedPreview st /\
  compressedSize st' = compressedSize st /\
  form st' = form st.

(** What the user chose is the same in two states. *)
Definition same_inputs (st st' : State) : Prop :=
  originalPreview st' = originalPreview st /\
  originalSize st' = originalSize st /\
  targetWidth st' = targetWidth st /\
  targetHeight st' = targetHeight st /\
  crop st' = crop st /\
  completedCrop st' = completedCrop st /\
  imgRef st' = imgRef st.

(** A stage of a run of [processImage] is rejected: the promise of
    [cropImage], of [imageCompression] or of [resizeImage] is. *)
Inductive stage_rejected (file : File) (st : State) (reason : Reason) : Prop :=
| crop_rejected image completed st1 :
    completedCrop st = Some completed ->
    imgRef st = Some image ->
    cropImage image completed (file_name file) st = (st1, Rejected reason) ->
    stage_rejected file st reason
| compress_rejected image completed st1 croppedFile :
    completedCrop st = Some completed ->
    imgRef st = Some image ->
    cropImage image completed (file_name file) st
      = (st1, Resolved croppedFile) ->
    imageCompression env croppedFile (compression_options st)
      = Rejected reason ->
    stage_rejected file st reason
| resize_rejected image completed st1 croppedFile compressedFile st2 :
    completedCrop st = Some completed ->
    imgRef st = Some image ->
    cropImage image completed (file_name file) st
      = (st1, Resolved croppedFile) ->
    imageCompression env croppedFile (compression_options st)
      = Resolved compressedFile ->
    resizeImage compressedFile (targetWidth st) (targetHeight st)
      (emit (ImageCompression croppedFile (compression_options st)) st1)
      = (st2, Rejected reason) ->
    stage_rejected file st reason.

(** The ways a stage fails. *)
Inductive Failure : Type :=
| Rejection (reason : Reason)   (* the promise of the stage is rejected *)
| NoData                        (* [toBlob] of [resizeImage] gives [null] *)
| HandlerThrows.                (* [img.onload] of [resizeImage] throws *)

(** A stage of a run of [processImage] fails: its promise is rejected,
    or, in the resize stage, the serialization of the canvas yields no
    data, or the [onload] handler throws because the shared canvas has
    no 2D context. *)
Inductive stage_failure (file : File) (st : State) : Failure -> Prop :=
| stage_is_rejected reason :
    stage_rejected file st reason ->
    stage_failure file st (Rejection reason)
| resize_yields_no_data image completed st1 croppedFile compressedFile st2 :
    completedCrop st = Some completed ->
    imgRef st = Some image ->
    cropImage image completed (file_name file) st
      = (st1, Resolved croppedFile) ->
    imageCompression env croppedFile (compression_options st)
      = Resolved compressedFile ->
    resizeImage compressedFile (targetWidth st) (targetHeight st)
      (emit (ImageCompression croppedFile (compression_options st)) st1)
      = (st2, Resolved None) ->
    stage_failure file st NoData
| resize_handler_throws image completed st1 croppedFile compressedFile size :
    completedCrop st = Some completed ->
    imgRef st = Some image ->
    cropImage image completed (file_name file) st
      = (st1, Resolved croppedFile) ->
    imageCompression env croppedFile (compression_options st)
      = Resolved compressedFile ->
    readAsDataURL_loads env compressedFile = true ->
    decode (file_data compressedFile) = Some size ->
    resize_getContext env = false ->
    stage_failure file st HandlerThrows.

End Model.

Arguments createCanvas {num}.
Arguments Text {num} s.
Arguments ConsoleError {num} message reason.
Arguments initial_state {num NUM}.

(** ** Concrete runs, in binary64 *)

Module Run.

Local Open Scope string_scope.
Local Open Scope float_scope.

(** A 4000 x 3000 photo picked by the user. *)
Definition photo : File float :=
  {| file_name := "photo.png"; file_size := 2000000%N;
     file_type := "image/png";
     file_data := Foreign (Some (4000, 3000)) |}.

(** The photo as displayed, 800 x 600 on screen. *)
Definition displayed : HTMLImageElement float :=
  {| naturalWidth := 4000; naturalHeight := 3000;
     img_width := 800; img_height := 600 |}.

(** A crop box over the full displayed frame. *)
Definition full_frame : Crop float :=
  {| crop_unit := Px; crop_x := 0; crop_y := 0;
     crop_width := 800; crop_height := 600 |}.

Definition zero_area (c : Canvas float) : bool :=
  (canvas_width c =? 0)%Z || (canvas_height c =? 0)%Z.

(** A browser in which everything works: a canvas always has a context,
    files are always read, [toBlob] gives data unless the canvas has no
    pixels, and the compression package re-encodes without resizing. *)
Definition browser : Env float :=
  {| crop_getContext := true;
     resize_getContext := true;
     toBlob_bytes := fun c _ _ => if zero_area c then None else Some 48000%N;
     imageCompression := fun f _ =>
       Resolved {| file_name := file_name f; file_size := 30000%N;
                   file_type := "image/jpeg";
                   file_data := Foreign (decode (file_data f)) |};
     readAsDataURL_loads := fun _ => true |}.

(** The same browser with a compression package that fails. *)
Definition browser_failing_compression : Env float :=
  {| crop_getContext := true;
     resize_getContext := true;
     toBlob_bytes := toBlob_bytes browser;
     imageCompression := fun _ _ =>
       Rejected (CompressionError "The file given is not an image");
     readAsDataURL_loads := fun _ => true |}.

(** The same browser, refusing a 2D context to [cropImage]'s canvas. *)
Definition browser_without_crop_context : Env float :=
  {| crop_getContext := false;
     resize_getContext := true;
     toBlob_bytes := toBlob_bytes browser;
     imageCompression := imageCompression browser;
     readAsDataURL_loads := fun _ => true |}.

(** The component after the photo has been dropped and the crop box
    released, with the default 600 x 400 target. *)
Definition cropped_state : State float :=
  {| originalPreview := Some (dataURL photo);
     compressedPreview := None;
     originalSize := Some (file_size photo);
     compressedSize := None;
     targetWidth := 600; targetHeight := 400;
     crop := full_frame; completedCrop := Some full_frame;
     imgRef := Some displayed;
     canvasRef := createCanvas;
     form := {| cover_image := Some photo; cover_image_error := None |};
     events := [] |}.

(** The component after one successful run. *)
Definition processed_state : State float :=
  fst (processImage browser photo cropped_state).

(** The photo dropped, no crop box released yet. *)
Definition uncropped_state : State float :=
  {| originalPreview := Some (dataURL photo);
     compressedPreview := None;
     originalSize := Some (file_size photo);
     compressedSize := None;
     targetWidth := 600; targetHeight := 400;
     crop := full_frame; completedCrop := None;
     imgRef := Some displayed;
     canvasRef := createCanvas;
     form := {| cover_image := Some photo; cover_image_error := None |};
     events := [] |}.

(** What [resizeImage] resolves with, in [browser], on the photo. *)
Definition resized (width height : float) : option (Blob float) :=
  match snd (resizeImage browser photo width height cropped_state) with
  | Resolved blob => blob
  | _ => None
  end.

(** A crop box of no height. *)
Definition flat_crop : Crop float :=
  {| crop_unit := Px; crop_x := 0; crop_y := 0;
     crop_width := 800; crop_height := 0 |}.

(** The file the form holds after one successful run. *)
Definition processed_file : File float :=
  match cover_image (form processed_state) with
  | Some f => f
  | None => photo
  end.

(** The component with the target height set to 0. *)
Definition zero_height_state : State float :=
  setTargetHeight 0 cropped_state.

(** The component with the target height set to -0, as typed. *)
Definition minus_zero_height_state : State float :=
  setTargetHeight neg_zero cropped_state.

(** A crop box as react-image-crop reports it after a drag: inside the
    displayed photo, with fractions of a pixel. *)
Definition fractional_crop : Crop float :=
  {| crop_unit := Px; crop_x := 10.25; crop_y := 20.5;
     crop_width := 400.75; crop_height := 300.5 |}.


(** After one successful run, the target height set to 0. *)
Definition zero_height_after_success : State float :=
  setTargetHeight 0 processed_state.

End Run.

(** ** The rest of the component *)

(** How a synchronous handler ends. *)
Inductive Completion : Type :=
| Returned
| Thrown (error : Reason).

(** [MAX_FILE_SIZE] (line 25): 10MB. *)
Definition MAX_FILE_SIZE : N := 10 * 1024 * 1024.

(** The MIME types of the third refinement of [formSchema] (line 33). *)
Definition supported_types : list string :=
  ["image/jpeg"; "image/jpg"; "image/png"]%string.

(** [types.includes(type)] *)
Definition includes (types : list string) (type : string) : bool :=
  existsb (String.eqb type) types.

Section Handlers.

Variable num : Type.
Context {NUM : Number num}.
Variable env : Env num.

Local Open Scope js_scope.
Local Open Scope string_scope.

(** The TypeErrors the engine throws, with its own wording, when a
    property of [undefined] is read and when [readAsDataURL] is given
    something that is no blob. *)
Variable undefined_property_error : Reason.
Variable not_a_blob_error : Reason.

(** *** [formSchema] (lines 27-36)

    The issues zod reports for a value that is a [File], in the order of
    the refinements; the first one, [file instanceof File], holds.  A
    failed refinement does not stop the later ones. *)
Definition formSchema (file : File num) : list string :=
  (if (file_size file <=? MAX_FILE_SIZE)%N then []
   else ["Max file size is 10MB."]) ++
  (if includes supported_types (file_type file) then []
   else ["Only .jpg, .jpeg, and .png formats are supported."]).

(** *** [onDrop] (lines 176-189) *)

Definition setOriginalPreview (v : option (DataURL num)) (st : State num)
  : State num :=
  {| originalPreview := v; compressedPreview := compressedPreview st;
     originalSize := originalSize st; compressedSize := compressedSize st;
     targetWidth := targetWidth st; targetHeight := targetHeight st;
     crop := crop st; completedCrop := completedCrop st; imgRef := imgRef st;
     canvasRef := canvasRef st; form := form st; events := events st |}.

Definition setOriginalSize (v : option N) (st : State num) : State num :=
  {| originalPreview := originalPreview st;
     compressedPreview := compressedPreview st;
     originalSize := v; compressedSize := compressedSize st;
     targetWidth := targetWidth st; targetHeight := targetHeight st;
     crop := crop st; completedCrop := completedCrop st; imgRef := imgRef st;
     canvasRef := canvasRef st; form := form st; events := events st |}.

(** The reader's [onload] of line 181. *)
Definition onDrop_onload (file : File num) (st : State num) : State num :=
  form_setValue file
    (setOriginalSize (Some (file_size file))
       (setOriginalPreview (Some (dataURL file)) st)).

(** [acceptedFiles[0]] of an empty array is [undefined], and
    [reader.readAsDataURL(undefined)] throws.  A read that fails runs no
    handler: there is no [onerror]. *)
Definition onDrop (acceptedFiles : list (File num)) (st : State num)
  : State num * Completion :=
  match acceptedFiles with
  | [] => (st, Thrown not_a_blob_error)
  | file :: _ =>
      if readAsDataURL_loads env file then (onDrop_onload file st, Returned)
      else (st, Returned)
  end.

(** *** The file input (lines 228-239)

    [onChange]: with a file chosen, [field.onChange(file)] stores it in
    the form, whatever becomes of the read that [onDrop] then starts. *)
Definition input_onChange (files : list (File num)) (st : State num)
  : State num * Completion :=
  match files with
  | [] => (st, Returned)
  | file :: _ => onDrop [file] (form_setValue file st)
  end.

(** *** The button "Apply Crop and Compress" (line 281)

    [processImage(form.getValues('cover_image'))]: the form may hold no
    file.  Then, past the guard of line 140, evaluating [file.name]
    inside the [try] block throws before [cropImage] is called. *)
Definition processImage_undefined : Async (State num) unit :=
  fun st =>
    match completedCrop st, imgRef st with
    | Some _, Some _ =>
        try_catch (reject undefined_property_error) (on_error (num := num)) st
    | _, _ => resolve tt st
    end.

Definition apply_onClick : Async (State num) unit :=
  fun st =>
    match cover_image (form st) with
    | Some file => processImage env file st
    | None => processImage_undefined st
    end.

(** *** What is rendered (lines 270-332) *)



(** [(1 - (compressedSize / originalSize)) * 100] (line 322), before
    [toFixed]. *)
Definition compression_ratio (compressedSize originalSize : N) : num :=
  (of_Z 1 - of_Z (Z.of_N compressedSize) / of_Z (Z.of_N originalSize))
  * of_Z 100.

(** [disabled={!form.getValues('cover_image')}] (line 329). *)
Definition submit_disabled (st : State num) : bool :=
  match cover_image (form st) with
  | Some _ => false
  | None => true
  end.

(** The previews, sizes and form of a state: what the page shows apart
    from the inputs. *)
Definition outputs (st : State num)
  : option (DataURL num) * option N * Form num :=
  (compressedPreview st, compressedSize st, form st).

End Handlers.

(** ** More concrete inputs *)

Module Cases.

Local Open Scope string_scope.

(** The errors as V8 words them. *)
Definition type_error : Reason :=
  Error "Cannot read properties of undefined (reading 'name')".

Definition blob_error : Reason :=
  Error "Failed to execute 'readAsDataURL' on 'FileReader': parameter 1 is not of type 'Blob'.".


(** The component with a crop box of no height released. *)
Definition flat_state : State float :=
  {| originalPreview := Some (dataURL Run.photo);
     compressedPreview := None;
     originalSize := Some (file_size Run.photo);
     compressedSize := None;
     targetWidth := 600%float; targetHeight := 400%float;
     crop := Run.flat_crop; completedCrop := Some Run.flat_crop;
     imgRef := Some Run.displayed;
     canvasRef := createCanvas;
     form := {| cover_image := Some Run.photo; cover_image_error := None |};
     events := [] |}.

(** A browser whose compression package never settles. *)
Definition browser_hanging_compression : Env float :=
  {| crop_getContext := true;
     resize_getContext := true;
     toBlob_bytes := toBlob_bytes Run.browser;
     imageCompression := fun _ _ => Pending;
     readAsDataURL_loads := fun _ => true |}.

End Cases.

(** * Properties *)

(** ** Facts that do not depend on the arithmetic *)

Section Properties.

Variable num : Type.
Context {NUM : Number num}.
Variable env : Env num.

Local Open Scope js_scope.
Local Open Scope string_scope.

(** *** The stages, one equation each *)

Lemma toBlob_eq (canvas : Canvas num) type quality st :
  toBlob env canvas type quality st =
  (emit (ToBlob canvas type quality) st,
   Resolved (blob_of env canvas type quality)).
Proof. reflexivity. Qed.

Lemma cropImage_eq image crop fileName st :
  cropImage env image crop fileName st =
  (emit (ToBlob (crop_canvas env image crop) "image/jpeg" (of_Z 1)) st,
   match toBlob_bytes env (crop_canvas env image crop) "image/jpeg" (of_Z 1)
   with
   | Some n =>
       Resolved {| file_name := fileName; file_size := n;
                   file_type := "image/jpeg";
                   file_data := Encoded (crop_canvas env image crop)
                                        (of_Z 1) |}
   | None => Rejected (Error "Canvas is empty")
   end).
Proof.
  unfold cropImage, await. rewrite toBlob_eq. unfold blob_of.
  destruct (toBlob_bytes env _ _ _); reflexivity.
Qed.

(** [resizeImage] once the file has been read and decoded and the shared
    canvas has a context. *)
Lemma resizeImage_painted file width height st size :
  readAsDataURL_loads env file = true ->
  decode (file_data file) = Some size ->
  resize_getContext env = true ->
  resizeImage env file width height st =
  (emit (ToBlob (paint (loaded_img size) width height (canvasRef st))
                "image/jpeg" nine_tenths)
        (set_canvas (paint (loaded_img size) width height (canvasRef st)) st),
   Resolved (blob_of env (paint (loaded_img size) width height (canvasRef st))
                     "image/jpeg" nine_tenths)).
Proof.
  intros Hread Hdec Hctx. unfold resizeImage.
  rewrite Hread. cbn [dataURL url_data]. rewrite Hdec.
  unfold img_onload. rewrite Hctx. apply toBlob_eq.
Qed.

Lemma paint_eq img width height canvas :
  paint img width height canvas =
  {| canvas_width := canvas_dimension 300 width;
     canvas_height := canvas_dimension 150 height;
     drawn :=
       [FillRect "white" (of_Z 0) (of_Z 0) width height;
        DrawImage img
          (offsetX (placement img width height))
          (offsetY (placement img width height))
          (drawWidth (placement img width height))
          (drawHeight (placement img width height))] |}.
Proof. reflexivity. Qed.

(** Whatever the environment does, a blob that [resizeImage] resolves
    with is the JPEG encoding of a canvas of the size that [width] and
    [height] convert to, painted on a context that exists. *)
Lemma resizeImage_blob file width height st st' blob :
  resizeImage env file width height st = (st', Resolved (Some blob)) ->
  decode (blob_data blob)
  = Some (of_Z (canvas_dimension 300 width),
          of_Z (canvas_dimension 150 height)) /\
  blob_type blob = "image/jpeg" /\
  resize_getContext env = true.
Proof.
  unfold resizeImage.
  destruct (readAsDataURL_loads env file); [| discriminate].
  destruct (decode _) as [size |]; [| discriminate].
  unfold img_onload.
  destruct (resize_getContext env); [| discriminate].
  rewrite toBlob_eq. unfold blob_of.
  destruct (toBlob_bytes env _ _ _); [| discriminate].
  intros H. injection H as _ <-. repeat split.
Qed.

(** *** What a stage leaves alone *)

Lemma same_outputs_trans (st1 st2 st3 : State num) :
  same_outputs st1 st2 -> same_outputs st2 st3 -> same_outputs st1 st3.
Proof.
  unfold same_outputs. intros (A1 & A2 & A3 & A4 & A5) (B1 & B2 & B3 & B4 & B5).
  repeat split; congruence.
Qed.

Lemma cropImage_same_outputs image crop fileName st :
  same_outputs st (fst (cropImage env image crop fileName st)).
Proof. rewrite cropImage_eq. repeat split. Qed.

Lemma resizeImage_same_outputs file width height st :
  same_outputs st (fst (resizeImage env file width height st)).
Proof.
  unfold resizeImage.
  destruct (readAsDataURL_loads env file); [| repeat split].
  destruct (decode _) as [size |]; [| repeat split].
  unfold img_onload.
  destruct (resize_getContext env); repeat split.
Qed.

(** *** The body of the [try] block, path by path *)

Lemma stages_crop_rejected image completed file options width height
    st st1 reason :
  cropImage env image completed (file_name file) st = (st1, Rejected reason) ->
  stages env image completed file options width height st
  = (st1, Rejected reason).
Proof. intros H. unfold stages, await. rewrite H. reflexivity. Qed.

Lemma stages_compress_rejected image completed file options width height
    st st1 croppedFile reason :
  cropImage env image completed (file_name file) st
    = (st1, Resolved croppedFile) ->
  imageCompression env croppedFile options = Rejected reason ->
  stages env image completed file options width height st
  = (emit (ImageCompression croppedFile options) st1, Rejected reason).
Proof.
  intros H1 H2. unfold stages, await at 1. rewrite H1.
  unfold await, compress. rewrite H2. reflexivity.
Qed.

Lemma stages_resize_rejected image completed file options width height
    st st1 croppedFile compressedFile st2 reason :
  cropImage env image completed (file_name file) st
    = (st1, Resolved croppedFile) ->
  imageCompression env croppedFile options = Resolved compressedFile ->
  resizeImage env compressedFile width height
    (emit (ImageCompression croppedFile options) st1) = (st2, Rejected reason) ->
  stages env image completed file options width height st
  = (st2, Rejected reason).
Proof.
  intros H1 H2 H3. unfold stages, await at 1. rewrite H1.
  unfold await at 1, compress. rewrite H2.
  unfold await at 1. rewrite H3. reflexivity.
Qed.

Lemma stages_resolved image completed file options width height
    st st1 croppedFile compressedFile st2 resizedBlob :
  cropImage env image completed (file_name file) st
    = (st1, Resolved croppedFile) ->
  imageCompression env croppedFile options = Resolved compressedFile ->
  resizeImage env compressedFile width height
    (emit (ImageCompression croppedFile options) st1)
    = (st2, Resolved resizedBlob) ->
  stages env image completed file options width height st
  = show_result env (new_File resizedBlob (file_name file) "image/jpeg")
      (form_clearErrors
         (form_setValue (new_File resizedBlob (file_name file) "image/jpeg")
                        st2)).
Proof.
  intros H1 H2 H3. unfold stages, await at 1. rewrite H1.
  unfold await at 1, compress. rewrite H2.
  unfold await at 1. rewrite H3. reflexivity.
Qed.

Lemma processImage_guarded file st completed image :
  completedCrop st = Some completed ->
  imgRef st = Some image ->
  processImage env file st
  = try_catch
      (stages env image completed file (compression_options st)
              (targetWidth st) (targetHeight st))
      (on_error (num := num)) st.
Proof. intros H1 H2. unfold processImage. rewrite H1, H2. reflexivity. Qed.

(** A rejected [try] block hands the state it reached to the [catch]
    block, which logs the reason and clears the three outputs. *)
Lemma processImage_caught file st completed image mid reason :
  completedCrop st = Some completed ->
  imgRef st = Some image ->
  stages env image completed file (compression_options st)
         (targetWidth st) (targetHeight st) st = (mid, Rejected reason) ->
  processImage env file st
  = (form_resetField
       (setCompressedSize None
          (setCompressedPreview None
             (emit (ConsoleError "Error processing image:" reason) mid))),
     Resolved tt).
Proof.
  intros H1 H2 H3. rewrite (processImage_guarded file st H1 H2).
  unfold try_catch. rewrite H3. reflexivity.
Qed.

(** *** The crop stage *)

(** X1.  [cropImage] is rejected exactly when [toBlob] gives [null], and
    then with [Error('Canvas is empty')]. *)
Lemma cropImage_rejected_iff image crop fileName st reason :
  snd (cropImage env image crop fileName st) = Rejected reason <->
  toBlob_bytes env (crop_canvas env image crop) "image/jpeg" (of_Z 1) = None
  /\ reason = Error "Canvas is empty".
Proof.
  rewrite cropImage_eq. cbn [snd].
  destruct (toBlob_bytes env _ _ _); split.
  - discriminate.
  - intros [H _]. discriminate.
  - intros H. injection H as <-. split; reflexivity.
  - intros [_ ->]. reflexivity.
Qed.

(** *** The orchestrator *)

(** C5, as the code has it.  With no completed crop (or no image element)
    [processImage] returns at once: its promise resolves, nothing is
    logged and the whole state, previews, sizes and form included, is as
    before. *)
Theorem processImage_without_crop file st :
  completedCrop st = None \/ imgRef st = None ->
  processImage env file st = (st, Resolved tt).
Proof.
  intros [H | H]; unfold processImage; rewrite H.
  - reflexivity.
  - destruct (completedCrop st); reflexivity.
Qed.

(** The body of the [try] block leaves what the user chose alone. *)
Lemma stages_keep_inputs image completed file options width height st :
  same_inputs st
    (fst (stages env image completed file options width height st)).
Proof.
  unfold stages, await at 1. rewrite cropImage_eq.
  destruct (toBlob_bytes env _ _ _) as [n |]; [| repeat split].
  unfold await at 1, compress.
  destruct (imageCompression env _ _) as [compressed | reason |];
    [| repeat split | repeat split].
  unfold await at 1, resizeImage.
  destruct (readAsDataURL_loads env compressed); [| repeat split].
  destruct (decode _) as [size |]; [| repeat split].
  unfold img_onload.
  destruct (resize_getContext env); [| repeat split].
  rewrite toBlob_eq. unfold await, exec, show_result.
  destruct (readAsDataURL_loads env (new_File _ _ _)); repeat split.
Qed.

Lemma run_keeps_inputs file (st : State num) :
  same_inputs st (fst (processImage env file st)).
Proof.
  unfold processImage.
  destruct (completedCrop st) as [completed |]; [| repeat split].
  destruct (imgRef st) as [image |]; [| repeat split].
  unfold try_catch.
  pose proof (stages_keep_inputs image completed file (compression_options st)
                (targetWidth st) (targetHeight st) st) as H.
  destruct (stages env image completed file (compression_options st)
                   (targetWidth st) (targetHeight st) st)
    as [mid [[] | reason |]]; exact H.
Qed.

(** The state a run hands to its [catch] block when a stage is
    rejected: the previews, the sizes and the form are still those the
    run started with. *)
Lemma stage_rejected_caught file st reason :
  stage_rejected env file st reason ->
  exists mid image completed,
    completedCrop st = Some completed /\ imgRef st = Some image /\
    same_outputs st mid /\
    stages env image completed file (compression_options st)
           (targetWidth st) (targetHeight st) st = (mid, Rejected reason).
Proof.
  intros [image completed st1 Hc Hi Hcrop
         | image completed st1 cropped Hc Hi Hcrop Hcomp
         | image completed st1 cropped compressed st2 Hc Hi Hcrop Hcomp Hres];
    pose proof (cropImage_same_outputs image completed (file_name file) st)
      as S1; rewrite Hcrop in S1; cbn [fst] in S1.
  - exists st1, image, completed. repeat split; try assumption; try apply S1.
    eapply stages_crop_rejected; eauto.
  - exists (emit (ImageCompression cropped (compression_options st)) st1),
      image, completed.
    repeat split; try assumption; try apply S1.
    eapply stages_compress_rejected; eauto.
  - exists st2, image, completed.
    pose proof (resizeImage_same_outputs compressed (targetWidth st)
                  (targetHeight st)
                  (emit (ImageCompression cropped (compression_options st))
                        st1)) as S2.
    rewrite Hres in S2. cbn [fst] in S2.
    split; [assumption |]. split; [assumption |]. split.
    + eapply same_outputs_trans; [| exact S2].
      destruct S1 as (A1 & A2 & A3 & A4 & A5). repeat split; assumption.
    + eapply stages_resize_rejected; eauto.
Qed.

(** C4.  What a run does when a stage fails, by the way it fails.  No
    failure touches the original preview and size.  When the promise of
    a stage is rejected, the [catch] block receives a state whose
    previews, sizes and form are those the run started with, logs the
    reason and empties the compressed preview, the compressed size and
    the form's file.  When the serialization of [resizeImage]'s canvas
    yields no data, nothing is cleared: the run resolves and stores in
    the form a file made from [null].  When [img.onload] throws, nothing
    is cleared either and the run never settles. *)
Theorem stage_failure_outcome file st failure :
  stage_failure env file st failure ->
  originalPreview (fst (processImage env file st)) = originalPreview st /\
  originalSize (fst (processImage env file st)) = originalSize st /\
  match failure with
  | Rejection reason =>
      (exists mid,
         same_outputs st mid /\
         processImage env file st
         = (form_resetField
              (setCompressedSize None
                 (setCompressedPreview None
                    (emit (ConsoleError "Error processing image:" reason)
                          mid))),
            Resolved tt)) /\
      compressedPreview (fst (processImage env file st)) = None /\
      compressedSize (fst (processImage env file st)) = None /\
      cover_image (form (fst (processImage env file st))) = None
  | NoData =>
      snd (processImage env file st) = Resolved tt /\
      form (fst (processImage env file st))
      = {| cover_image := Some (new_File None (file_name file) "image/jpeg");
           cover_image_error := None |} /\
      if readAsDataURL_loads env (new_File None (file_name file) "image/jpeg")
      then
        compressedPreview (fst (processImage env file st))
        = Some (dataURL (new_File None (file_name file) "image/jpeg")) /\
        compressedSize (fst (processImage env file st)) = Some 4%N
      else
        compressedPreview (fst (processImage env file st))
        = compressedPreview st /\
        compressedSize (fst (processImage env file st)) = compressedSize st
  | HandlerThrows =>
      snd (processImage env file st) = Pending /\
      same_outputs st (fst (processImage env file st))
  end.
Proof.
  intros Hfail.
  destruct (run_keeps_inputs file st) as (I1 & I2 & _).
  split; [exact I1 |]. split; [exact I2 |].
  destruct Hfail as [reason Hrej
                    | image completed st1 cropped compressed st2
                        Hc Hi Hcrop Hcomp Hres
                    | image completed st1 cropped compressed size
                        Hc Hi Hcrop Hcomp Hread Hdec Hctx].
  - (* a rejected promise *)
    destruct (stage_rejected_caught Hrej)
      as (mid & image & completed & Hc & Hi & Hsame & Hst).
    rewrite (processImage_caught file st Hc Hi Hst).
    split; [exists mid; split; [exact Hsame | reflexivity] |].
    repeat split.
  - (* no data from the canvas of resizeImage *)
    pose proof (cropImage_same_outputs image completed (file_name file) st)
      as S1. rewrite Hcrop in S1. cbn [fst] in S1.
    pose proof (resizeImage_same_outputs compressed (targetWidth st)
                  (targetHeight st)
                  (emit (ImageCompression cropped (compression_options st))
                        st1)) as S2.
    rewrite Hres in S2. cbn [fst] in S2.
    destruct S1 as (_ & _ & A3 & A4 & _). destruct S2 as (_ & _ & B3 & B4 & _).
    cbn in B3, B4.
    rewrite (processImage_guarded file st Hc Hi). unfold try_catch.
    rewrite (stages_resolved image completed file _ _ _ st Hcrop Hcomp Hres).
    unfold show_result.
    destruct (readAsDataURL_loads env (new_File None _ _)); cbn.
    + repeat split.
    + split; [reflexivity |]. split; [reflexivity |]. split; congruence.
  - (* img.onload throws *)
    pose proof (cropImage_same_outputs image completed (file_name file) st)
      as S1. rewrite Hcrop in S1. cbn [fst] in S1.
    assert (Hrun : exists mid,
               same_outputs st1 mid /\
               processImage env file st = (mid, Pending)).
    { eexists. split; [| rewrite (processImage_guarded file st Hc Hi);
                        unfold try_catch, stages, await at 1; rewrite Hcrop;
                        unfold await at 1, compress; rewrite Hcomp;
                        unfold await at 1, resizeImage; rewrite Hread;
                        cbn [dataURL url_data]; rewrite Hdec;
                        unfold img_onload; rewrite Hctx; reflexivity].
      repeat split. }
    destruct Hrun as (mid & S2 & ->). cbn [fst snd].
    split; [reflexivity |].
    apply (same_outputs_trans S1 S2).
Qed.

(** The only call of [imageCompression] that a run adds to the log
    carries the options built from the targets. *)
Lemma processImage_compression_calls file st f o :
  In (ImageCompression f o) (events (fst (processImage env file st))) ->
  In (ImageCompression f o) (events st) \/ o = compression_options st.
Proof.
  unfold processImage.
  destruct (completedCrop st) as [completed |]; [| intros H; left; exact H].
  destruct (imgRef st) as [image |]; [| intros H; left; exact H].
  unfold try_catch, stages, await at 1. rewrite cropImage_eq.
  destruct (toBlob_bytes env _ _ _) as [n |].
  2:{ cbn. intros H. rewrite <- app_assoc in H.
      apply in_app_or in H. destruct H as [H | H]; [left; exact H |].
      cbn in H. destruct H as [H | [H | []]]; discriminate. }
  unfold await at 1, compress.
  set (cropped := {| file_name := file_name file; file_size := n |}).
  assert (Hin : forall l,
             In (ImageCompression f o)
                (((events st ++ [ToBlob (crop_canvas env image completed)
                                        "image/jpeg" (of_Z 1)])
                  ++ [ImageCompression cropped (compression_options st)])
                 ++ l) ->
             (forall d, In d l -> d <> ImageCompression f o) ->
             In (ImageCompression f o) (events st)
             \/ o = compression_options st).
  { intros l H Hl. apply in_app_or in H. destruct H as [H | H].
    - apply in_app_or in H. destruct H as [H | [H | []]].
      + apply in_app_or in H. destruct H as [H | [H | []]];
          [left; exact H | discriminate].
      + right. injection H as _ <-. reflexivity.
    - exfalso. exact (Hl _ H eq_refl). }
  destruct (imageCompression env cropped (compression_options st))
    as [compressed | reason |].
  - unfold await at 1, resizeImage.
    destruct (readAsDataURL_loads env compressed).
    2:{ cbn. intros H. apply (Hin _ H). intros d [<- | []]. discriminate. }
    destruct (decode _) as [size |].
    2:{ cbn. intros H. apply (Hin _ H). intros d [<- | []]. discriminate. }
    unfold img_onload. destruct (resize_getContext env).
    2:{ cbn. intros H. rewrite <- app_nil_r in H. apply (Hin _ H).
        intros d []. }
    rewrite toBlob_eq. unfold await, exec, show_result.
    destruct (readAsDataURL_loads env _); cbn; intros H;
      apply (Hin _ H); intros d [<- | []]; discriminate.
  - cbn. intros H. apply (Hin _ H). intros d [<- | []]. discriminate.
  - cbn. intros H. rewrite <- app_nil_r in H. apply (Hin _ H). intros d [].
Qed.

(** C10.  In a run whose three stages all resolve, the form receives a
    file of type image/jpeg named after the file [processImage] was
    called with, and [imageCompression] has been called on the cropped
    file with [maxSizeMB = 5] and [maxWidthOrHeight] the larger of the
    two targets; no run calls it with other options. *)
Theorem processImage_output_artifact file st image completed st1
    croppedFile compressedFile st2 resizedBlob :
  let options :=
    {| maxSizeMB := of_Z 5;
       maxWidthOrHeight := Math_max (targetWidth st) (targetHeight st);
       useWebWorker := true |} in
  completedCrop st = Some completed ->
  imgRef st = Some image ->
  cropImage env image completed (file_name file) st
    = (st1, Resolved croppedFile) ->
  imageCompression env croppedFile options = Resolved compressedFile ->
  resizeImage env compressedFile (targetWidth st) (targetHeight st)
    (emit (ImageCompression croppedFile options) st1)
    = (st2, Resolved resizedBlob) ->
  (exists output,
     cover_image (form (fst (processImage env file st))) = Some output /\
     file_type output = "image/jpeg" /\
     file_name output = file_name file) /\
  snd (processImage env file st) = Resolved tt /\
  In (ImageCompression croppedFile options)
     (events (fst (processImage env file st))) /\
  (forall f o,
     In (ImageCompression f o) (events (fst (processImage env file st))) ->
     In (ImageCompression f o) (events st) \/ o = options).
Proof.
  intros options.
  assert (Ho : options = compression_options st) by reflexivity.
  clearbody options. subst options.
  intros Hc Hi Hcrop Hcomp Hres.
  assert (Hev : In (ImageCompression croppedFile (compression_options st)) (events st2)).
  { revert Hres. unfold resizeImage.
    assert (Hin : In (ImageCompression croppedFile (compression_options st))
                     (events (emit (ImageCompression croppedFile (compression_options st)) st1)))
      by (cbn; apply in_or_app; right; left; reflexivity).
    destruct (readAsDataURL_loads env compressedFile); [| discriminate].
    destruct (decode _) as [size |]; [| discriminate].
    unfold img_onload. destruct (resize_getContext env); [| discriminate].
    rewrite toBlob_eq. intros H. injection H as <- _.
    cbn. apply in_or_app. left. exact Hin. }
  rewrite (processImage_guarded file st Hc Hi). unfold try_catch.
  rewrite (stages_resolved image completed file _ _ _ st Hcrop Hcomp Hres).
  split; [| split; [| split]].
  - exists (new_File resizedBlob (file_name file) "image/jpeg").
    unfold show_result.
    destruct (readAsDataURL_loads env _); (split; [reflexivity |]);
      destruct resizedBlob; split; reflexivity.
  - unfold show_result. destruct (readAsDataURL_loads env _); reflexivity.
  - unfold show_result. destruct (readAsDataURL_loads env _); exact Hev.
  - intros f o H. apply (processImage_compression_calls file st f o).
    rewrite (processImage_guarded file st Hc Hi). unfold try_catch.
    rewrite (stages_resolved image completed file _ _ _ st Hcrop Hcomp Hres).
    exact H.
Qed.

(** X2.  [processImage] never rejects: its promise resolves, or stays
    pending when a stage never settles. *)
Lemma processImage_resolves_or_hangs file st :
  snd (processImage env file st) = Resolved tt \/
  snd (processImage env file st) = Pending.
Proof.
  unfold processImage.
  destruct (completedCrop st) as [completed |]; [| left; reflexivity].
  destruct (imgRef st) as [image |]; [| left; reflexivity].
  unfold try_catch.
  destruct (stages env image completed file (compression_options st)
                   (targetWidth st) (targetHeight st) st)
    as [mid [[] | reason |]].
  - left. reflexivity.
  - left. reflexivity.
  - right. reflexivity.
Qed.

(** X3.  No run touches what the user chose: the original preview and
    size, the targets, the crop box and the image element. *)
Lemma processImage_keeps_inputs file st :
  same_inputs st (fst (processImage env file st)).
Proof.
  unfold processImage.
  destruct (completedCrop st) as [completed |]; [| repeat split].
  destruct (imgRef st) as [image |]; [| repeat split].
  unfold try_catch, stages, await at 1. rewrite cropImage_eq.
  destruct (toBlob_bytes env _ _ _) as [n |]; [| repeat split].
  unfold await at 1, compress.
  destruct (imageCompression env _ _) as [compressed | reason |];
    [| repeat split | repeat split].
  unfold await at 1, resizeImage.
  destruct (readAsDataURL_loads env compressed); [| repeat split].
  destruct (decode _) as [size |]; [| repeat split].
  unfold img_onload.
  destruct (resize_getContext env); [| repeat split].
  rewrite toBlob_eq. unfold await, exec, show_result.
  destruct (readAsDataURL_loads env (new_File _ _ _)); repeat split.
Qed.

End Properties.

(** ** Rounding in binary64 *)

Section Rounding_facts.

(** *** An integer below 2^53 is a double *)

Lemma digits2_pos_iter p k :
  Zpos (digits2_pos (Pos.iter xO p k)) = (Zpos (digits2_pos p) + Zpos k)%Z.
Proof.
  induction k using Pos.peano_ind.
  - cbn. lia.
  - rewrite Pos.iter_succ. cbn [digits2_pos]. lia.
Qed.

Lemma iter_xO_shiftl p k : Zpos (Pos.iter xO p k) = Z.shiftl (Zpos p) (Zpos k).
Proof.
  induction k using Pos.peano_ind.
  - reflexivity.
  - rewrite Pos.iter_succ. cbn [Z.shiftl] in *. rewrite Pos.iter_succ.
    rewrite <- IHk. reflexivity.
Qed.

Lemma digits2_pos_bound p :
  (Zpos p < 2 ^ 53)%Z -> (Zpos (digits2_pos p) <= 53)%Z.
Proof.
  intros H.
  assert (Hsize : digits2_pos p = Pos.size p)
    by (clear H; induction p; cbn; congruence).
  rewrite Hsize.
  assert (H2 : (2 ^ Zpos (Pos.size p) <= 2 * Zpos p)%Z).
  { change (2 * Zpos p)%Z with (Zpos p~0).
    rewrite <- Pos2Z.inj_pow. apply Pos2Z.pos_le_pos, Pos.size_le. }
  destruct (Z.le_gt_cases (Zpos (Pos.size p)) 53) as [Hle | Hgt];
    [exact Hle |].
  exfalso.
  assert (2 ^ 54 <= 2 ^ Zpos (Pos.size p))%Z by (apply Z.pow_le_mono_r; lia).
  lia.
Qed.

(** A mantissa of 53 bits with an exponent in range is left as it is. *)
Lemma binary_round_aux_canonical s m e :
  Zpos (digits2_pos m) = 53%Z -> (-1074 <= e <= 971)%Z ->
  binary_round_aux prec emax s (Zpos m) e loc_Exact = S754_finite s m e.
Proof.
  intros Hd He.
  unfold binary_round_aux, shr_fexp, Zdigits2. rewrite Hd.
  assert (Hf : (fexp prec emax (53 + e) - e = 0)%Z)
    by (unfold fexp, emin, prec, emax; lia).
  rewrite Hf.
  cbn [shr shr_record_of_loc shr_m loc_of_shr_record round_nearest_even].
  cbn [Zdigits2]. rewrite Hd, Hf. cbn [shr shr_record_of_loc shr_m].
  assert (Hle : (e <=? emax - prec)%Z = true)
    by (apply Z.leb_le; unfold emax, prec; lia).
  rewrite Hle. reflexivity.
Qed.

Lemma binary_normalize_small p :
  (Zpos p < 2 ^ 53)%Z ->
  exists m e,
    binary_normalize prec emax (Zpos p) 0 false = S754_finite false m e /\
    Z.shiftl (Zpos m) e = Zpos p.
Proof.
  intros Hp. pose proof (@digits2_pos_bound p Hp) as Hd.
  unfold binary_normalize, binary_round, shl_align.
  assert (Hf : (fexp prec emax (Zpos (digits2_pos p) + 0) - 0
                = Zpos (digits2_pos p) - 53)%Z)
    by (unfold fexp, emin, prec, emax; lia).
  rewrite Hf.
  destruct (Zpos (digits2_pos p) - 53)%Z as [| k | k] eqn:Hk.
  - exists p, 0%Z. split; [| reflexivity].
    apply binary_round_aux_canonical; lia.
  - lia.
  - assert (Hfe : fexp prec emax (Zpos (digits2_pos p) + 0) = Zneg k)
      by (unfold fexp, emin, prec, emax; lia).
    rewrite Hfe.
    exists (Pos.iter xO p k), (Zneg k). split.
    + apply binary_round_aux_canonical; [rewrite digits2_pos_iter |]; lia.
    + rewrite iter_xO_shiftl. change (Zneg k) with (- Zpos k)%Z.
      rewrite Z.shiftl_opp_r, Z.shiftr_shiftl_l by lia.
      rewrite Z.sub_diag. reflexivity.
Qed.

Lemma Prim2SF_of_Z z :
  (0 < z < 2 ^ 53)%Z ->
  exists m e,
    Prim2SF (Binary64.of_Z z) = S754_finite false m e /\
    Z.shiftl (Zpos m) e = z.
Proof.
  intros Hz. destruct z as [| p | p]; [lia | | lia].
  unfold Binary64.of_Z.
  rewrite of_uint63_spec, Uint63.of_Z_spec.
  rewrite Z.mod_small by (change Uint63.wB with (2 ^ 63)%Z; lia).
  apply binary_normalize_small, Hz.
Qed.

(** *** Rounding never makes a NaN *)

Lemma shr_1_nonneg mrs : (0 <= shr_m mrs)%Z -> (0 <= shr_m (shr_1 mrs))%Z.
Proof.
  destruct mrs as [m r s]. cbn [shr_m]. intros H.
  destruct m as [| [p | p |] | p]; cbn; lia.
Qed.

Lemma iter_pos_shr_1_nonneg n : forall mrs,
  (0 <= shr_m mrs)%Z -> (0 <= shr_m (iter_pos shr_1 n mrs))%Z.
Proof.
  induction n as [n IH | n IH |]; intros mrs H; cbn [iter_pos].
  - apply IH, IH, shr_1_nonneg, H.
  - apply IH, IH, H.
  - apply shr_1_nonneg, H.
Qed.

Lemma shr_fexp_nonneg m e l :
  (0 <= m)%Z -> (0 <= shr_m (fst (shr_fexp prec emax m e l)))%Z.
Proof.
  intros H. unfold shr_fexp, shr.
  assert (H0 : (0 <= shr_m (shr_record_of_loc m l))%Z)
    by (destruct l as [| []]; exact H).
  destruct (_ - e)%Z; cbn [fst]; try exact H0.
  apply iter_pos_shr_1_nonneg, H0.
Qed.

Lemma round_nearest_even_nonneg m l :
  (0 <= m)%Z -> (0 <= round_nearest_even m l)%Z.
Proof.
  intros H. destruct l as [| []]; cbn [round_nearest_even]; try lia.
  destruct (Z.even m); lia.
Qed.

Lemma binary_round_aux_not_nan s m e l :
  (0 <= m)%Z -> binary_round_aux prec emax s m e l <> S754_nan.
Proof.
  intros H. unfold binary_round_aux.
  pose proof (shr_fexp_nonneg e l H) as H1.
  destruct (shr_fexp prec emax m e l) as [mrs' e']. cbn [fst] in H1.
  pose proof (shr_fexp_nonneg e' loc_Exact
                (round_nearest_even_nonneg (loc_of_shr_record mrs') H1))
    as H2.
  destruct (shr_fexp prec emax _ e' loc_Exact) as [mrs'' e''].
  cbn [fst] in H2.
  destruct (shr_m mrs'') as [| p | p]; [discriminate | | lia].
  destruct (_ <=? _)%Z; discriminate.
Qed.

Lemma SFmul_finite_not_nan sx mx ex sy my ey :
  SF64mul (S754_finite sx mx ex) (S754_finite sy my ey) <> S754_nan.
Proof.
  cbn [SF64mul SFmul]. apply binary_round_aux_not_nan. lia.
Qed.

Lemma SFdiv_finite_not_nan sx mx ex sy my ey :
  SF64div (S754_finite sx mx ex) (S754_finite sy my ey) <> S754_nan.
Proof.
  cbn [SF64div SFdiv]. unfold SFdiv_core_binary.
  set (s := (_ - _ - _)%Z).
  set (m' := match s with
             | Zpos _ => Z.shiftl (Zpos mx) s
             | Z0 => Zpos mx
             | Zneg _ => 0%Z
             end).
  assert (Hm : (0 <= m')%Z).
  { unfold m'. destruct s; try lia. apply Z.shiftl_nonneg. lia. }
  assert (Hq : (0 <= m' / Zpos my)%Z) by (apply Z.div_pos; lia).
  unfold Z.div in Hq.
  destruct (Z.div_eucl m' (Zpos my)) as [q r].
  apply binary_round_aux_not_nan. exact Hq.
Qed.

End Rounding_facts.

(** ** The error of one rounding *)

Unset Implicit Arguments.

Section Rounding_error.

Local Open Scope Q_scope.



Lemma pow2_add a b : pow2 (a + b) == pow2 a * pow2 b.
Proof. apply Qpower_plus. discriminate. Qed.


Lemma pow2_m1 : pow2 (-1) == 1 # 2.
Proof. reflexivity. Qed.

Lemma pow2_pred e : pow2 (e - 1) == (1 # 2) * pow2 e.
Proof.
  change (e - 1)%Z with (e + -1)%Z. rewrite pow2_add, pow2_m1. ring.
Qed.












Lemma loc_of_loc m l : loc_of_shr_record (shr_record_of_loc m l) = l.
Proof. destruct l as [| []]; reflexivity. Qed.

Lemma inject_Z_le_inv a b : inject_Z a <= inject_Z b -> (a <= b)%Z.
Proof. rewrite <- Zle_Qle. trivial. Qed.






















End Rounding_error.

Set Implicit Arguments.

(** ** Facts of binary64 arithmetic *)

Section Binary64_facts.

Local Open Scope float_scope.

Lemma Prim2SF_zero : Prim2SF 0 = S754_zero false.
Proof. reflexivity. Qed.

Lemma Prim2SF_infinity : Prim2SF infinity = S754_infinity false.
Proof. reflexivity. Qed.

Lemma positive_finite_inv a :
  Binary64.positive_finite a = true ->
  exists m e, Prim2SF a = S754_finite false m e.
Proof.
  unfold Binary64.positive_finite. rewrite andb_true_iff, !ltb_spec.
  rewrite Prim2SF_zero, Prim2SF_infinity.
  destruct (Prim2SF a) as [[] | [] | | [] m e]; cbn; intros [H1 H2];
    try discriminate.
  eauto.
Qed.

Lemma is_zero_inv a :
  PrimFloat.is_zero a = true -> exists s, Prim2SF a = S754_zero s.
Proof.
  unfold PrimFloat.is_zero. rewrite FloatAxioms.eqb_spec.
  change (Prim2SF zero) with (S754_zero false).
  destruct (Prim2SF a) as [s | [] | | [] m e]; cbn; try discriminate.
  eauto.
Qed.

Lemma is_nan_spec a : PrimFloat.is_nan a = true <-> Prim2SF a = S754_nan.
Proof.
  unfold PrimFloat.is_nan. rewrite FloatAxioms.eqb_spec.
  unfold SFeqb, SFcompare.
  destruct (Prim2SF a) as [[] | [] | | [] m e]; cbn;
    try rewrite Z.compare_refl, Pos.compare_cont_refl; cbn;
    split; intros H; try reflexivity; discriminate.
Qed.

Lemma is_nan_false a : PrimFloat.is_nan a = false <-> Prim2SF a <> S754_nan.
Proof.
  rewrite <- is_nan_spec.
  destruct (PrimFloat.is_nan a); split; intros H; congruence.
Qed.

Lemma is_infinity_spec a s :
  Prim2SF a = S754_infinity s -> PrimFloat.is_infinity a = true.
Proof.
  intros H. unfold PrimFloat.is_infinity.
  rewrite FloatAxioms.eqb_spec, abs_spec, H. reflexivity.
Qed.

(** [a > a] is false for every number, NaN included. *)
Lemma b64_gt_irrefl a : Binary64.gt a a = false.
Proof.
  unfold Binary64.gt. rewrite ltb_spec. unfold SFltb, SFcompare.
  destruct (Prim2SF a) as [[] | [] | | [] m e]; try reflexivity;
    rewrite Z.compare_refl, Pos.compare_cont_refl; reflexivity.
Qed.



(** Division by zero raises nothing: it gives an infinity, or NaN. *)
Lemma b64_div_by_zero a b :
  PrimFloat.is_zero b = true ->
  PrimFloat.is_infinity (a / b) = true \/ PrimFloat.is_nan (a / b) = true.
Proof.
  intros H. destruct (@is_zero_inv b H) as [sb Hb].
  destruct (Prim2SF a) as [sa | sa | | sa m e] eqn:Ha.
  - right. apply is_nan_spec. rewrite div_spec, Ha, Hb. reflexivity.
  - left. apply (@is_infinity_spec _ (xorb sa sb)).
    rewrite div_spec, Ha, Hb. reflexivity.
  - right. apply is_nan_spec. rewrite div_spec, Ha, Hb. reflexivity.
  - left. apply (@is_infinity_spec _ (xorb sa sb)).
    rewrite div_spec, Ha, Hb. reflexivity.
Qed.

(** Dividing or multiplying a number by a positive finite one gives NaN
    only if the number is NaN. *)
Lemma b64_div_not_nan a b :
  PrimFloat.is_nan a = false -> Binary64.positive_finite b = true ->
  PrimFloat.is_nan (a / b) = false.
Proof.
  rewrite !is_nan_false. intros Ha Hb.
  destruct (@positive_finite_inv b Hb) as (m & e & Hm).
  rewrite div_spec, Hm.
  destruct (Prim2SF a) as [sa | sa | | sa ma ea];
    [discriminate | discriminate | congruence |].
  apply SFdiv_finite_not_nan.
Qed.

Lemma b64_mul_not_nan a b :
  PrimFloat.is_nan a = false -> Binary64.positive_finite b = true ->
  PrimFloat.is_nan (a * b) = false.
Proof.
  rewrite !is_nan_false. intros Ha Hb.
  destruct (@positive_finite_inv b Hb) as (m & e & Hm).
  rewrite mul_spec, Hm.
  destruct (Prim2SF a) as [sa | sa | | sa ma ea];
    [discriminate | discriminate | congruence |].
  apply SFmul_finite_not_nan.
Qed.

Lemma b64_sub_self a :
  Binary64.positive_finite a = true -> a - a = 0.
Proof.
  intros H. destruct (@positive_finite_inv a H) as (m & e & Ha).
  apply Prim2SF_inj. rewrite sub_spec, Ha, Prim2SF_zero.
  unfold SF64sub, SFsub. cbn [cond_Zopp]. rewrite Z.sub_diag. reflexivity.
Qed.

(** *** The conversion to unsigned long *)

Lemma IntegerPart_of_Z z :
  (0 <= z < 2 ^ 53)%Z -> Binary64.IntegerPart (Binary64.of_Z z) = z.
Proof.
  intros Hz. destruct (Z.eq_dec z 0) as [-> | Hne]; [reflexivity |].
  destruct (@Prim2SF_of_Z z) as (m & e & Hm & Hs); [lia |].
  unfold Binary64.IntegerPart. rewrite Hm. exact Hs.
Qed.

Lemma of_Z_positive_finite z :
  (0 < z < 2 ^ 53)%Z -> Binary64.positive_finite (Binary64.of_Z z) = true.
Proof.
  intros Hz. destruct (@Prim2SF_of_Z z Hz) as (m & e & Hm & _).
  unfold Binary64.positive_finite.
  rewrite !ltb_spec, Hm, Prim2SF_zero, Prim2SF_infinity. reflexivity.
Qed.

(** The integer part rounds the value of the double towards zero. *)
Lemma IntegerPart_truncates a q :
  Binary64.exact_value a = Some q ->
  Binary64.IntegerPart a = Z.quot (Qnum q) (Zpos (Qden q)).
Proof.
  unfold Binary64.exact_value, Binary64.IntegerPart.
  destruct (Prim2SF a) as [s | s | | s m e]; try discriminate;
    intros H; injection H as <-.
  - reflexivity.
  - destruct e as [| k | k]; cbn [Qnum Qden inject_Z].
    + rewrite Z.quot_1_r. destruct s; cbn; lia.
    + rewrite Z.quot_1_r, Z.shiftl_mul_pow2 by lia. destruct s; lia.
    + change (Zneg k) with (- Zpos k)%Z.
      rewrite Z.shiftl_opp_r, Z.shiftr_div_pow2 by lia.
      rewrite Pos2Z.inj_pow.
      assert (Hpow : (0 < 2 ^ Zpos k)%Z) by (apply Z.pow_pos_nonneg; lia).
      destruct s.
      * change (Zneg m) with (- Zpos m)%Z.
        rewrite Z.quot_opp_l by lia.
        rewrite Z.quot_div_nonneg by lia. reflexivity.
      * rewrite Z.quot_div_nonneg by lia. reflexivity.
Qed.

(** An integer from 0 to 2147483647 is the canvas size it is assigned
    as. *)
Lemma canvas_dimension_of_Z default z :
  (0 <= z <= 2147483647)%Z ->
  canvas_dimension default (Binary64.of_Z z) = z.
Proof.
  intros Hz. unfold canvas_dimension.
  cbn [to_unsigned_long binary64]. unfold Binary64.to_unsigned_long.
  rewrite IntegerPart_of_Z by lia.
  rewrite Z.mod_small by lia.
  destruct (Z.leb_spec z 2147483647); [reflexivity | lia].
Qed.

(** A number with an integer part from 0 to 2147483647 gives a canvas
    of that size. *)
Lemma canvas_dimension_IntegerPart default (a : float) :
  (0 <= Binary64.IntegerPart a <= 2147483647)%Z ->
  canvas_dimension default a = Binary64.IntegerPart a.
Proof.
  intros Hz. unfold canvas_dimension.
  cbn [to_unsigned_long binary64]. unfold Binary64.to_unsigned_long.
  rewrite Z.mod_small by lia.
  destruct (Z.leb_spec (Binary64.IntegerPart a) 2147483647);
    [reflexivity | lia].
Qed.

Lemma canvas_dimension_zero default (a : float) :
  PrimFloat.is_zero a = true -> canvas_dimension default a = 0%Z.
Proof.
  intros H. destruct (@is_zero_inv a H) as [s Hs].
  rewrite canvas_dimension_IntegerPart;
    unfold Binary64.IntegerPart; rewrite Hs; [reflexivity | lia].
Qed.

(** *** Placement *)

(** No drawn dimension is NaN unless a target is. *)
Lemma placement_not_nan (size : float * float) (width height : float) :
  Binary64.positive_finite (fst size / snd size) = true ->
  PrimFloat.is_nan width = false ->
  PrimFloat.is_nan height = false ->
  PrimFloat.is_nan (drawWidth (placement (loaded_img size) width height))
  = false /\
  PrimFloat.is_nan (drawHeight (placement (loaded_img size) width height))
  = false.
Proof.
  intros Ha Hw Hh. unfold placement.
  cbn [div mul sub gt binary64 loaded_img img_width img_height].
  destruct (Binary64.gt _ _); cbn [drawWidth drawHeight]; split;
    try assumption.
  - apply b64_div_not_nan; assumption.
  - apply b64_mul_not_nan; assumption.
Qed.

(** The placement of an image that already has the target size. *)
Lemma placement_same_size (width height : float) :
  placement (loaded_img (width, height)) width height =
  {| drawWidth := height * (width / height);
     drawHeight := height;
     offsetX := (width - height * (width / height)) / 2;
     offsetY := 0 |}.
Proof.
  unfold placement.
  cbn [div mul sub gt binary64 loaded_img img_width img_height fst snd].
  rewrite b64_gt_irrefl. reflexivity.
Qed.

End Binary64_facts.

(** ** The stages on doubles *)

Section Stages_in_binary64.

Variable env : Env float.

Local Open Scope string_scope.
Local Open Scope float_scope.


(** *** The resize stage *)

(** C1, as the code has it.  For every file that can be read and
    decoded, whatever the size of its image, and all integer targets
    [width] and [height] from 1 to 2147483647 for which the canvas can
    be painted and serialized, [resizeImage] resolves with the JPEG
    encoding of a canvas of exactly [width] x [height] pixels, the
    shared canvas. *)
Theorem resizeImage_exact_dimensions file (width height : Z) st size n :
  (0 < width <= 2147483647)%Z ->
  (0 < height <= 2147483647)%Z ->
  readAsDataURL_loads env file = true ->
  decode (file_data file) = Some size ->
  resize_getContext env = true ->
  toBlob_bytes env
    (paint (loaded_img size) (of_Z width) (of_Z height) (canvasRef st))
    "image/jpeg" nine_tenths = Some n ->
  exists canvas st',
    resizeImage env file (of_Z width) (of_Z height) st
    = (st', Resolved (Some {| blob_size := n; blob_type := "image/jpeg";
                              blob_data := Encoded canvas nine_tenths |})) /\
    canvas_width canvas = width /\
    canvas_height canvas = height /\
    decode (Encoded canvas nine_tenths) = Some (of_Z width, of_Z height) /\
    canvasRef st' = canvas.
Proof.
  intros Hw Hh Hread Hdec Hctx Hblob.
  rewrite (resizeImage_painted env file (of_Z width) (of_Z height) st
             Hread Hdec Hctx).
  unfold blob_of. rewrite Hblob. cbn [option_map].
  eexists. eexists. split; [reflexivity |].
  rewrite paint_eq. cbn [canvas_width canvas_height decode of_Z binary64].
  rewrite !canvas_dimension_of_Z by lia.
  repeat split.
Qed.


(** *** The crop stage *)

(** C3, as the code has it.  With a 2D context and a canvas that
    serializes, [cropImage] resolves with the encoding of a surface onto
    which it has copied the region of the image at ([x] * scaleX,
    [y] * scaleY) of size ([width] * scaleX, [height] * scaleY), where
    scaleX = naturalWidth / width and scaleY = naturalHeight / height of
    the displayed image.  The size of the surface is the crop box's
    displayed width and height converted to unsigned long: exactly that
    width and height when they are integers from 0 to 2147483647, and
    their values rounded towards zero when these are in that range. *)
Theorem cropImage_surface image crop fileName st n :
  let surface :=
    {| canvas_width := canvas_dimension 300 (crop_width crop);
       canvas_height := canvas_dimension 150 (crop_height crop);
       drawn :=
         [DrawImageRegion image
            (crop_x crop * (naturalWidth image / img_width image))
            (crop_y crop * (naturalHeight image / img_height image))
            (crop_width crop * (naturalWidth image / img_width image))
            (crop_height crop * (naturalHeight image / img_height image))
            0 0 (crop_width crop) (crop_height crop)] |} in
  crop_getContext env = true ->
  toBlob_bytes env surface "image/jpeg" 1 = Some n ->
  cropImage env image crop fileName st
  = (emit (ToBlob surface "image/jpeg" 1) st,
     Resolved {| file_name := fileName; file_size := n;
                 file_type := "image/jpeg";
                 file_data := Encoded surface 1 |}) /\
  (forall w h : Z,
     (0 <= w <= 2147483647)%Z -> (0 <= h <= 2147483647)%Z ->
     crop_width crop = of_Z w -> crop_height crop = of_Z h ->
     canvas_width surface = w /\ canvas_height surface = h) /\
  (forall qw qh : Q,
     Binary64.exact_value (crop_width crop) = Some qw ->
     Binary64.exact_value (crop_height crop) = Some qh ->
     (0 <= Z.quot (Qnum qw) (Zpos (Qden qw)) <= 2147483647)%Z ->
     (0 <= Z.quot (Qnum qh) (Zpos (Qden qh)) <= 2147483647)%Z ->
     canvas_width surface = Z.quot (Qnum qw) (Zpos (Qden qw)) /\
     canvas_height surface = Z.quot (Qnum qh) (Zpos (Qden qh))).
Proof.
  intros surface Hctx Hblob. split; [| split].
  - rewrite cropImage_eq. change (of_Z 1) with 1.
    assert (Hs : crop_canvas env image crop = surface).
    { unfold crop_canvas. rewrite Hctx. reflexivity. }
    rewrite Hs, Hblob. reflexivity.
  - intros w h Hw Hh Ew Eh. cbn [surface canvas_width canvas_height].
    rewrite Ew, Eh. cbn [of_Z binary64].
    rewrite !canvas_dimension_of_Z by assumption. split; reflexivity.
  - intros qw qh Ew Eh Hw Hh. cbn [surface canvas_width canvas_height].
    rewrite <- (IntegerPart_truncates _ Ew) in *.
    rewrite <- (IntegerPart_truncates _ Eh) in *.
    rewrite !canvas_dimension_IntegerPart by assumption. split; reflexivity.
Qed.

(** C9, as the code has it.  Without a 2D context [cropImage] draws
    nothing and still calls [toBlob], on a blank surface; when that
    gives data it resolves with the encoding of the blank surface.  The
    size of the surface is the crop box's width and height converted to
    unsigned long: the requested size when that is made of integers from
    0 to 2147483647, and its values rounded towards zero when these are
    in that range. *)
Theorem cropImage_without_context image crop fileName st n :
  let blank :=
    {| canvas_width := canvas_dimension 300 (crop_width crop);
       canvas_height := canvas_dimension 150 (crop_height crop);
       drawn := [] |} in
  crop_getContext env = false ->
  toBlob_bytes env blank "image/jpeg" 1 = Some n ->
  cropImage env image crop fileName st
  = (emit (ToBlob blank "image/jpeg" 1) st,
     Resolved {| file_name := fileName; file_size := n;
                 file_type := "image/jpeg";
                 file_data := Encoded blank 1 |}) /\
  decode (Encoded blank 1)
  = Some (of_Z (canvas_dimension 300 (crop_width crop)),
          of_Z (canvas_dimension 150 (crop_height crop))) /\
  (forall w h : Z,
     (0 <= w <= 2147483647)%Z -> (0 <= h <= 2147483647)%Z ->
     crop_width crop = of_Z w -> crop_height crop = of_Z h ->
     blank = {| canvas_width := w; canvas_height := h; drawn := [] |}) /\
  (forall qw qh : Q,
     Binary64.exact_value (crop_width crop) = Some qw ->
     Binary64.exact_value (crop_height crop) = Some qh ->
     (0 <= Z.quot (Qnum qw) (Zpos (Qden qw)) <= 2147483647)%Z ->
     (0 <= Z.quot (Qnum qh) (Zpos (Qden qh)) <= 2147483647)%Z ->
     blank = {| canvas_width := Z.quot (Qnum qw) (Zpos (Qden qw));
                canvas_height := Z.quot (Qnum qh) (Zpos (Qden qh));
                drawn := [] |}).
Proof.
  intros blank Hctx Hblob. split; [| split; [| split]].
  - rewrite cropImage_eq. change (of_Z 1) with 1.
    assert (Hs : crop_canvas env image crop = blank).
    { unfold crop_canvas. rewrite Hctx. reflexivity. }
    rewrite Hs, Hblob. reflexivity.
  - reflexivity.
  - intros w h Hw Hh Ew Eh. unfold blank.
    rewrite Ew, Eh. cbn [of_Z binary64].
    rewrite !canvas_dimension_of_Z by assumption. reflexivity.
  - intros qw qh Ew Eh Hw Hh. unfold blank.
    rewrite <- (IntegerPart_truncates _ Ew) in *.
    rewrite <- (IntegerPart_truncates _ Eh) in *.
    rewrite !canvas_dimension_IntegerPart by assumption. reflexivity.
Qed.

(** *** Zero targets *)

(** C7, as the code has it.  [processImage] does not look at the
    targets: with one of them zero, of either sign and whatever the
    other, once [cropImage] and [imageCompression] have resolved and the
    compressed file is read and decoded, [resizeImage] runs on those
    targets and calls [toBlob] on a canvas without pixels.  With a zero
    height the target's aspect ratio is a division by zero, which gives
    an infinity or NaN.  No drawn dimension is NaN unless a target is. *)
Theorem processImage_zero_target file st image completed
    st1 croppedFile compressedFile size :
  completedCrop st = Some completed ->
  imgRef st = Some image ->
  cropImage env image completed (file_name file) st
    = (st1, Resolved croppedFile) ->
  imageCompression env croppedFile (compression_options st)
    = Resolved compressedFile ->
  readAsDataURL_loads env compressedFile = true ->
  decode (file_data compressedFile) = Some size ->
  resize_getContext env = true ->
  Binary64.zero_target (targetWidth st) (targetHeight st) ->
  let canvas :=
    paint (loaded_img size) (targetWidth st) (targetHeight st)
          (canvasRef st1) in
  In (ToBlob canvas "image/jpeg" nine_tenths)
     (events (fst (processImage env file st))) /\
  (canvas_width canvas = 0%Z \/ canvas_height canvas = 0%Z) /\
  (PrimFloat.is_zero (targetHeight st) = true ->
   PrimFloat.is_infinity (targetWidth st / targetHeight st) = true \/
   PrimFloat.is_nan (targetWidth st / targetHeight st) = true) /\
  (Binary64.positive_finite (fst size / snd size) = true ->
   PrimFloat.is_nan (targetWidth st) = false ->
   PrimFloat.is_nan (targetHeight st) = false ->
   PrimFloat.is_nan
     (drawWidth (placement (loaded_img size) (targetWidth st)
                           (targetHeight st))) = false /\
   PrimFloat.is_nan
     (drawHeight (placement (loaded_img size) (targetWidth st)
                            (targetHeight st))) = false).
Proof.
  intros Hc Hi Hcrop Hcomp Hread Hdec Hctx Hz canvas.
  pose proof (resizeImage_painted env compressedFile (targetWidth st)
                (targetHeight st)
                (emit (ImageCompression croppedFile (compression_options st))
                      st1)
                Hread Hdec Hctx) as Hres.
  split; [| split; [| split]].
  - rewrite (processImage_guarded env file st Hc Hi). unfold try_catch.
    rewrite (stages_resolved env image completed file _ _ _ st
               Hcrop Hcomp Hres).
    unfold show_result.
    destruct (readAsDataURL_loads env (new_File _ _ _)); cbn;
      apply in_or_app; right; left; reflexivity.
  - unfold canvas. rewrite paint_eq. cbn [canvas_width canvas_height].
    destruct Hz as [Hz | Hz]; [left | right];
      apply canvas_dimension_zero; exact Hz.
  - apply b64_div_by_zero.
  - apply placement_not_nan.
Qed.

(** *** Running the resize stage on its own output *)

(** X18.  Let [blob] be an output of the resize stage for integer
    targets [width] and [height] from 1 to 2147483647, wrapped in a
    file.  The stage run on it with the same targets paints a canvas of
    the same size.  The second branch is taken: the drawn height is the
    target height and offsetY is 0; the drawn width is
    height * (width / height) and offsetX is half of what that leaves.
    When height * (width / height) gives back the width, and only then,
    the image is drawn at full size with zero offsets. *)
Theorem resizeImage_again file0 (width height : Z) st0 st1 blob name st :
  (0 < width <= 2147483647)%Z ->
  (0 < height <= 2147483647)%Z ->
  resizeImage env file0 (of_Z width) (of_Z height) st0
  = (st1, Resolved (Some blob)) ->
  readAsDataURL_loads env (new_File (Some blob) name "image/jpeg") = true ->
  let w : float := of_Z width in
  let h : float := of_Z height in
  let again :=
    canvasRef (fst (resizeImage env (new_File (Some blob) name "image/jpeg")
                                w h st)) in
  again
  = {| canvas_width := width; canvas_height := height;
       drawn := [FillRect "white" 0 0 w h;
                 DrawImage (loaded_img (w, h))
                           ((w - h * (w / h)) / 2) 0 (h * (w / h)) h] |} /\
  (h * (w / h) = w <->
   drawn again
   = [FillRect "white" 0 0 w h; DrawImage (loaded_img (w, h)) 0 0 w h]).
Proof.
  intros Hw Hh Hfirst Hread w h again.
  destruct (resizeImage_blob env file0 (of_Z width) (of_Z height) st0 Hfirst)
    as (Hdec & _ & Hctx).
  cbn [of_Z binary64] in Hdec.
  rewrite !canvas_dimension_of_Z in Hdec by lia.
  assert (Hagain : again
    = {| canvas_width := width; canvas_height := height;
         drawn := [FillRect "white" 0 0 w h;
                   DrawImage (loaded_img (w, h))
                             ((w - h * (w / h)) / 2) 0 (h * (w / h)) h] |}).
  { unfold again.
    rewrite (resizeImage_painted env (new_File (Some blob) name "image/jpeg")
               w h st Hread Hdec Hctx).
    cbn [fst canvasRef set_canvas emit]. rewrite paint_eq.
    rewrite placement_same_size.
    cbn [offsetX offsetY drawWidth drawHeight of_Z binary64].
    unfold w, h. cbn [of_Z binary64].
    rewrite !canvas_dimension_of_Z by lia. reflexivity. }
  split; [exact Hagain |].
  rewrite Hagain. cbn [drawn]. split.
  - intros ->.
    rewrite (b64_sub_self w) by (apply of_Z_positive_finite; lia).
    reflexivity.
  - intros H. injection H as _ H. exact H.
Qed.

End Stages_in_binary64.

(** ** Serialization that yields no data *)

(** C6, at the failing input.  A 600 x 0 canvas has no pixels and
    [toBlob] gives [null]; [resizeImage] then resolves, with [null], and
    [processImage] stores a file holding the text "null" in the form.
    On a canvas without pixels [cropImage] is rejected. *)
Theorem resizeImage_null_blob_resolves :
  toBlob_bytes Run.browser
    (paint (loaded_img (4000, 3000)%float) 600%float 0%float createCanvas)
    "image/jpeg" nine_tenths = None /\
  snd (resizeImage Run.browser Run.photo 600%float 0%float Run.cropped_state)
  = Resolved None /\
  snd (processImage Run.browser Run.photo Run.zero_height_state)
  = Resolved tt /\
  cover_image (form (fst (processImage Run.browser Run.photo
                                       Run.zero_height_state)))
  = Some {| file_name := "photo.png"; file_size := 4%N;
            file_type := "image/jpeg"; file_data := Text "null" |} /\
  snd (cropImage Run.browser Run.displayed Run.flat_crop "photo.png"
                 Run.cropped_state)
  = Rejected (Error "Canvas is empty").
Proof. repeat split; vm_compute; reflexivity. Qed.

(** * Concrete runs *)

Section Concrete_runs.

Local Open Scope string_scope.
Local Open Scope float_scope.

(** C1 on the 4000 x 3000 photo and the default 600 x 400 target. *)
Lemma resizeImage_exact_dimensions_witness :
  exists canvas st',
    resizeImage Run.browser Run.photo 600 400 Run.cropped_state
    = (st', Resolved (Some {| blob_size := 48000; blob_type := "image/jpeg";
                              blob_data := Encoded canvas 0.9 |})) /\
    canvas_width canvas = 600%Z /\
    canvas_height canvas = 400%Z.
Proof.
  destruct (resizeImage_exact_dimensions Run.browser Run.photo
              (width := 600) (height := 400) Run.cropped_state
              (size := (4000, 3000)) (n := 48000%N))
    as (canvas & st' & Hrun & Hw & Hh & _); try reflexivity; try lia.
  exists canvas, st'. split; [exact Hrun | split; [exact Hw | exact Hh]].
Defined.

(** C1 as stated fails: 4294967896 and 2147483648 are positive
    integers, and the output for the target 4294967896 x 400 is 600
    pixels wide, that for 2147483648 x 400 is 300 pixels wide. *)
Lemma resizeImage_4294967896_by_400_is_600_wide :
  of_Z 4294967896 = 4294967896 /\
  (exists canvas,
     snd (resizeImage Run.browser Run.photo 4294967896 400 Run.cropped_state)
     = Resolved (Some {| blob_size := 48000; blob_type := "image/jpeg";
                         blob_data := Encoded canvas 0.9 |}) /\
     canvas_width canvas = 600%Z /\
     canvas_height canvas = 400%Z /\
     decode (Encoded canvas 0.9) = Some (600, 400)) /\
  of_Z 2147483648 = 2147483648 /\
  (exists canvas,
     snd (resizeImage Run.browser Run.photo 2147483648 400 Run.cropped_state)
     = Resolved (Some {| blob_size := 48000; blob_type := "image/jpeg";
                         blob_data := Encoded canvas 0.9 |}) /\
     canvas_width canvas = 300%Z /\
     canvas_height canvas = 400%Z).
Proof.
  split; [reflexivity |]. split.
  - eexists. split; [vm_compute; reflexivity |]. repeat split.
  - split; [reflexivity |].
    eexists. split; [vm_compute; reflexivity |]. repeat split.
Qed.



(** C3 on the full-frame crop of the photo: scaleX = scaleY = 5. *)
Lemma cropImage_surface_witness :
  cropImage Run.browser Run.displayed Run.full_frame "photo.png"
            Run.cropped_state
  = (emit (ToBlob {| canvas_width := 800; canvas_height := 600;
                     drawn := [DrawImageRegion Run.displayed
                                 0 0 4000 3000 0 0 800 600] |}
                  "image/jpeg" 1) Run.cropped_state,
     Resolved {| file_name := "photo.png"; file_size := 48000%N;
                 file_type := "image/jpeg";
                 file_data :=
                   Encoded {| canvas_width := 800; canvas_height := 600;
                              drawn := [DrawImageRegion Run.displayed
                                          0 0 4000 3000 0 0 800 600] |}
                           1 |}).
Proof.
  exact (proj1 (cropImage_surface Run.browser Run.displayed Run.full_frame
                  "photo.png" Run.cropped_state (n := 48000%N)
                  eq_refl eq_refl)).
Defined.

(** C3 as stated fails: the surface for a crop box of 400.75 x 300.5
    inside the displayed photo is 400 x 300. *)
Lemma cropImage_fractional_box_is_truncated :
  crop_width Run.fractional_crop = 400.75 /\
  crop_height Run.fractional_crop = 300.5 /\
  exists surface,
    snd (cropImage Run.browser Run.displayed Run.fractional_crop "photo.png"
                   Run.cropped_state)
    = Resolved {| file_name := "photo.png"; file_size := 48000%N;
                  file_type := "image/jpeg";
                  file_data := Encoded surface 1 |} /\
    drawn surface
    = [DrawImageRegion Run.displayed 51.25 102.5 2003.75 1502.5
                       0 0 400.75 300.5] /\
    canvas_width surface = 400%Z /\
    canvas_height surface = 300%Z /\
    PrimFloat.eqb (of_Z (canvas_width surface)) 400.75 = false /\
    PrimFloat.eqb (of_Z (canvas_height surface)) 300.5 = false.
Proof.
  split; [reflexivity |]. split; [reflexivity |].
  eexists. split; [vm_compute; reflexivity |].
  repeat split.
Qed.

(** C9 on the full-frame crop, in a browser that gives no context. *)
Lemma cropImage_without_context_witness :
  cropImage Run.browser_without_crop_context Run.displayed Run.full_frame
            "photo.png" Run.cropped_state
  = (emit (ToBlob {| canvas_width := 800; canvas_height := 600;
                     drawn := [] |} "image/jpeg" 1) Run.cropped_state,
     Resolved {| file_name := "photo.png"; file_size := 48000%N;
                 file_type := "image/jpeg";
                 file_data :=
                   Encoded {| canvas_width := 800; canvas_height := 600;
                              drawn := [] |} 1 |}).
Proof.
  exact (proj1 (cropImage_without_context Run.browser_without_crop_context
                  Run.displayed Run.full_frame "photo.png" Run.cropped_state
                  (n := 48000%N) eq_refl eq_refl)).
Defined.

(** C9 as stated fails: without a context, the blank image for a crop
    box of 400.75 x 300.5 is 400 x 300, not of the requested size. *)
Lemma blank_surface_of_fractional_box_is_truncated :
  snd (cropImage Run.browser_without_crop_context Run.displayed
                 Run.fractional_crop "photo.png" Run.cropped_state)
  = Resolved {| file_name := "photo.png"; file_size := 48000%N;
                file_type := "image/jpeg";
                file_data :=
                  Encoded {| canvas_width := 400; canvas_height := 300;
                             drawn := [] |} 1 |} /\
  decode (Encoded {| canvas_width := 400; canvas_height := 300;
                     drawn := [] |} 1)
  = Some (400, 300) /\
  PrimFloat.eqb 400 (crop_width Run.fractional_crop) = false /\
  PrimFloat.eqb 300 (crop_height Run.fractional_crop) = false.
Proof. repeat split; vm_compute; reflexivity. Qed.

(** C5, amended, before any crop box has been released. *)
Lemma processImage_without_crop_witness :
  processImage Run.browser Run.photo Run.uncropped_state
  = (Run.uncropped_state, Resolved tt).
Proof.
  apply processImage_without_crop. left. reflexivity.
Defined.

(** C4 at the failing input: after one successful run the target height
    is set to 0 and the button pressed again.  The canvas of
    [resizeImage] yields no data, and the run shows and stores a file
    made from [null] instead of clearing the outputs. *)
Lemma stage_failure_outcome_witness :
  snd (processImage Run.browser Run.processed_file
                    Run.zero_height_after_success) = Resolved tt /\
  form (fst (processImage Run.browser Run.processed_file
                          Run.zero_height_after_success))
  = {| cover_image :=
         Some {| file_name := "photo.png"; file_size := 4%N;
                 file_type := "image/jpeg"; file_data := Text "null" |};
       cover_image_error := None |} /\
  compressedPreview (fst (processImage Run.browser Run.processed_file
                                       Run.zero_height_after_success))
  = Some {| url_type := "image/jpeg"; url_data := Text "null" |} /\
  compressedSize (fst (processImage Run.browser Run.processed_file
                                    Run.zero_height_after_success))
  = Some 4%N.
Proof.
  assert (Hfail : stage_failure Run.browser Run.processed_file
                    Run.zero_height_after_success NoData)
    by (eapply resize_yields_no_data; reflexivity).
  destruct (stage_failure_outcome Hfail) as (_ & _ & Hrun & Hform & Hshown).
  split; [exact Hrun |]. split; [exact Hform | exact Hshown].
Defined.

(** C10 on the photo and the default 600 x 400 target. *)
Lemma processImage_output_artifact_witness :
  (exists output,
     cover_image (form (fst (processImage Run.browser Run.photo
                                          Run.cropped_state)))
     = Some output /\
     file_type output = "image/jpeg" /\
     file_name output = "photo.png") /\
  In (ImageCompression
        {| file_name := "photo.png"; file_size := 48000%N;
           file_type := "image/jpeg";
           file_data := Encoded (crop_canvas Run.browser Run.displayed
                                             Run.full_frame) 1 |}
        {| maxSizeMB := 5; maxWidthOrHeight := 600; useWebWorker := true |})
     (events (fst (processImage Run.browser Run.photo Run.cropped_state))).
Proof.
  edestruct (processImage_output_artifact Run.browser Run.photo
               Run.cropped_state
               (image := Run.displayed) (completed := Run.full_frame))
    as (Hout & _ & Hin & _);
    [reflexivity | reflexivity | vm_compute; reflexivity
     | vm_compute; reflexivity | vm_compute; reflexivity |].
  split; [exact Hout | exact Hin].
Defined.

(** C7, amended, with target 600 x -0: the target's aspect ratio is
    -Infinity, the first branch is taken and the drawn rectangle is
    600 x 450. *)
Lemma processImage_zero_target_witness :
  In (ToBlob {| canvas_width := 600; canvas_height := 0;
                drawn := [FillRect "white" 0 0 600 neg_zero;
                          DrawImage (loaded_img (800, 600))
                                    0 (-225) 600 450] |}
             "image/jpeg" nine_tenths)
     (events (fst (processImage Run.browser Run.photo
                                Run.minus_zero_height_state))) /\
  PrimFloat.is_infinity (600 / neg_zero) = true /\
  PrimFloat.is_nan (drawWidth (placement (loaded_img (800, 600))
                                         600 neg_zero)) = false /\
  PrimFloat.is_nan (drawHeight (placement (loaded_img (800, 600))
                                          600 neg_zero)) = false.
Proof.
  destruct (processImage_zero_target Run.browser Run.photo
              Run.minus_zero_height_state
              (image := Run.displayed) (completed := Run.full_frame)
              (size := (800, 600))
              eq_refl eq_refl eq_refl eq_refl eq_refl eq_refl eq_refl
              (or_intror eq_refl))
    as (Hran & _ & _ & Hdims).
  split; [exact Hran |]. split; [reflexivity |].
  apply Hdims; reflexivity.
Defined.

(** C7 as stated fails: with target 600 x 0 the run is not stopped
    before the resize stage, which paints and serializes a 600 x 0
    canvas; its target aspect ratio, 600 / 0, is Infinity. *)
Lemma zero_height_reaches_resizeImage :
  In (ToBlob {| canvas_width := 600; canvas_height := 0;
                drawn := [FillRect "white" 0 0 600 0;
                          DrawImage (loaded_img (800, 600)) 300 0 0 0] |}
             "image/jpeg" nine_tenths)
     (events (fst (processImage Run.browser Run.photo
                                Run.zero_height_state))) /\
  targetWidth Run.zero_height_state / targetHeight Run.zero_height_state
  = infinity.
Proof.
  split.
  - vm_compute. right. right. left. reflexivity.
  - vm_compute. reflexivity.
Qed.

(** X18 on a 600 x 400 output: 400 * (600 / 400) is 600. *)
Lemma resizeImage_again_witness :
  exists blob first,
    resizeImage Run.browser Run.photo 600 400 Run.cropped_state
    = (first, Resolved (Some blob)) /\
    canvasRef (fst (resizeImage Run.browser
                      (new_File (Some blob) "photo.png" "image/jpeg")
                      600 400 first))
    = {| canvas_width := 600; canvas_height := 400;
         drawn := [FillRect "white" 0 0 600 400;
                   DrawImage (loaded_img (600, 400)) 0 0 600 400] |}.
Proof.
  eexists. eexists. split; [reflexivity |].
  destruct (resizeImage_again Run.browser Run.photo
              (width := 600) (height := 400)
              Run.cropped_state "photo.png"
              (fst (resizeImage Run.browser Run.photo 600 400
                                Run.cropped_state))
              ltac:(lia) ltac:(lia) eq_refl eq_refl)
    as (Hagain & _).
  exact Hagain.
Defined.

(** The 110 x 100 output of the resize stage, resized to 110 x 100
    again, is not drawn at full size with zero offsets:
    100 * (110 / 100) is 110.00000000000001 in binary64. *)
Lemma resizeImage_again_110_100_is_shifted :
  (exists blob, Run.resized 110 100 = Some blob) /\
  drawn (canvasRef
           (fst (resizeImage Run.browser
                   (new_File (Run.resized 110 100) "photo.png" "image/jpeg")
                   110 100 Run.cropped_state)))
  = [FillRect "white" 0 0 110 100;
     DrawImage (loaded_img (110, 100))
               (-7.1054273576010019e-15) 0 110.00000000000001 100].
Proof.
  split; [eexists; vm_compute; reflexivity |].
  vm_compute. reflexivity.
Qed.

(** C5 as stated fails: with no completed crop nothing is rejected and
    nothing is logged, so no error of any kind is yielded. *)
Lemma processImage_without_crop_yields_no_error :
  ~ ((exists reason,
        snd (processImage Run.browser Run.photo Run.uncropped_state)
        = Rejected reason) \/
     (exists message reason,
        In (ConsoleError message reason)
           (events (fst (processImage Run.browser Run.photo
                                      Run.uncropped_state))))).
Proof.
  intros [[reason H] | (message & reason & H)].
  - vm_compute in H. discriminate.
  - vm_compute in H. exact H.
Qed.

End Concrete_runs.

(** * Properties of the rest of the component *)

Section More_properties.

Variable num : Type.
Context {NUM : Number num}.
Variable env : Env num.
Variable type_error blob_error : Reason.

Local Open Scope js_scope.
Local Open Scope string_scope.

(** X4.  What [resizeImage] settles with does not depend on the state it
    starts from: nothing a previous run left on the shared canvas shows
    in the blob. *)
Theorem resizeImage_ignores_previous_canvas file width height
    (st st' : State num) :
  snd (resizeImage env file width height st)
  = snd (resizeImage env file width height st').
Proof.
  unfold resizeImage.
  destruct (readAsDataURL_loads env file); [| reflexivity].
  destruct (decode _) as [size |]; [| reflexivity].
  unfold img_onload.
  destruct (resize_getContext env); [| reflexivity].
  rewrite !toBlob_eq. cbn [snd].
  rewrite (paint_eq _ _ _ (canvasRef st)), (paint_eq _ _ _ (canvasRef st')).
  reflexivity.
Qed.

(** X5.  [processImage] reads nothing of the file it is given but its
    name: the pixels come from the displayed image element. *)
Theorem processImage_reads_only_the_name (file file' : File num) st :
  file_name file = file_name file' ->
  processImage env file st = processImage env file' st.
Proof.
  intros H. unfold processImage, stages. rewrite H. reflexivity.
Qed.

(** X6.  When [cropImage] is rejected, [imageCompression] is never called
    and the shared canvas is not touched: the run logs the one [toBlob]
    call and the error. *)
Theorem rejected_crop_stops_the_run file st image completed :
  completedCrop st = Some completed ->
  imgRef st = Some image ->
  toBlob_bytes env (crop_canvas env image completed) "image/jpeg" (of_Z 1)
  = None ->
  events (fst (processImage env file st))
  = (events st ++
     [ToBlob (crop_canvas env image completed) "image/jpeg" (of_Z 1);
      ConsoleError "Error processing image:" (Error "Canvas is empty")])%list
  /\
  canvasRef (fst (processImage env file st)) = canvasRef st.
Proof.
  intros Hc Hi Hblob.
  assert (Hcrop : cropImage env image completed (file_name file) st
                  = (emit (ToBlob (crop_canvas env image completed)
                                  "image/jpeg" (of_Z 1)) st,
                     Rejected (Error "Canvas is empty"))).
  { rewrite cropImage_eq, Hblob. reflexivity. }
  rewrite (processImage_caught env file st Hc Hi
             (stages_crop_rejected env image completed file _ _ _ st Hcrop)).
  cbn. rewrite <- app_assoc. split; reflexivity.
Qed.

(** X7.  When [imageCompression] is rejected, [resizeImage] does not
    run: the shared canvas is not touched and nothing is serialized after
    the crop. *)
Theorem rejected_compression_stops_the_run file st image completed n reason :
  completedCrop st = Some completed ->
  imgRef st = Some image ->
  toBlob_bytes env (crop_canvas env image completed) "image/jpeg" (of_Z 1)
  = Some n ->
  imageCompression env
    {| file_name := file_name file; file_size := n;
       file_type := "image/jpeg";
       file_data := Encoded (crop_canvas env image completed) (of_Z 1) |}
    (compression_options st) = Rejected reason ->
  events (fst (processImage env file st))
  = (events st ++
    [ToBlob (crop_canvas env image completed) "image/jpeg" (of_Z 1);
     ImageCompression
       {| file_name := file_name file; file_size := n;
          file_type := "image/jpeg";
          file_data := Encoded (crop_canvas env image completed) (of_Z 1) |}
       (compression_options st);
     ConsoleError "Error processing image:" reason])%list /\
  canvasRef (fst (processImage env file st)) = canvasRef st.
Proof.
  intros Hc Hi Hblob Hcomp.
  assert (Hcrop : cropImage env image completed (file_name file) st
                  = (emit (ToBlob (crop_canvas env image completed)
                                  "image/jpeg" (of_Z 1)) st,
                     Resolved
                       {| file_name := file_name file; file_size := n;
                          file_type := "image/jpeg";
                          file_data :=
                            Encoded (crop_canvas env image completed)
                                    (of_Z 1) |})).
  { rewrite cropImage_eq, Hblob. reflexivity. }
  rewrite (processImage_caught env file st Hc Hi
             (stages_compress_rejected env image completed file _ _ _ st
                Hcrop Hcomp)).
  cbn. rewrite <- !app_assoc. split; reflexivity.
Qed.

(** X8.  After a run whose stages all resolve, the form holds the new
    file and no error.  If reading that file back succeeds the
    compressed preview and size are its data URL and byte length; if it
    fails they stay what they were before the run, beside the new
    file. *)
Theorem published_result file st image completed st1 croppedFile
    compressedFile st2 resizedBlob :
  completedCrop st = Some completed ->
  imgRef st = Some image ->
  cropImage env image completed (file_name file) st
    = (st1, Resolved croppedFile) ->
  imageCompression env croppedFile (compression_options st)
    = Resolved compressedFile ->
  resizeImage env compressedFile (targetWidth st) (targetHeight st)
    (emit (ImageCompression croppedFile (compression_options st)) st1)
    = (st2, Resolved resizedBlob) ->
  form (fst (processImage env file st))
  = {| cover_image :=
         Some (new_File resizedBlob (file_name file) "image/jpeg");
       cover_image_error := None |} /\
  if readAsDataURL_loads env
       (new_File resizedBlob (file_name file) "image/jpeg")
  then
    compressedPreview (fst (processImage env file st))
    = Some (dataURL (new_File resizedBlob (file_name file) "image/jpeg")) /\
    compressedSize (fst (processImage env file st))
    = Some (file_size (new_File resizedBlob (file_name file) "image/jpeg"))
  else
    compressedPreview (fst (processImage env file st))
    = compressedPreview st /\
    compressedSize (fst (processImage env file st)) = compressedSize st.
Proof.
  intros Hc Hi Hcrop Hcomp Hres.
  pose proof (cropImage_same_outputs env image completed (file_name file) st)
    as S1. rewrite Hcrop in S1. cbn [fst] in S1.
  pose proof (resizeImage_same_outputs env compressedFile (targetWidth st)
                (targetHeight st)
                (emit (ImageCompression croppedFile (compression_options st))
                      st1)) as S2.
  rewrite Hres in S2. cbn [fst] in S2.
  destruct S1 as (_ & _ & A3 & A4 & _). destruct S2 as (_ & _ & B3 & B4 & _).
  cbn in B3, B4.
  rewrite (processImage_guarded env file st Hc Hi). unfold try_catch.
  rewrite (stages_resolved env image completed file _ _ _ st
             Hcrop Hcomp Hres).
  unfold show_result.
  destruct (readAsDataURL_loads env (new_File _ _ _)); cbn.
  - repeat split.
  - split; [reflexivity |]. split; congruence.
Qed.

(** X9.  The file a run stores in the form is of a supported type, so it
    passes [formSchema] exactly when it is at most [MAX_FILE_SIZE] bytes
    long; the file built from a [null] blob passes. *)
Theorem published_result_passes_formSchema file st image completed st1
    croppedFile compressedFile st2 resizedBlob :
  completedCrop st = Some completed ->
  imgRef st = Some image ->
  cropImage env image completed (file_name file) st
    = (st1, Resolved croppedFile) ->
  imageCompression env croppedFile (compression_options st)
    = Resolved compressedFile ->
  resizeImage env compressedFile (targetWidth st) (targetHeight st)
    (emit (ImageCompression croppedFile (compression_options st)) st1)
    = (st2, Resolved resizedBlob) ->
  exists output,
    cover_image (form (fst (processImage env file st))) = Some output /\
    (formSchema output = [] <-> (file_size output <= MAX_FILE_SIZE)%N) /\
    (resizedBlob = None -> formSchema output = []).
Proof.
  intros Hc Hi Hcrop Hcomp Hres.
  exists (new_File resizedBlob (file_name file) "image/jpeg").
  split.
  - rewrite (processImage_guarded env file st Hc Hi). unfold try_catch.
    rewrite (stages_resolved env image completed file _ _ _ st
               Hcrop Hcomp Hres).
    unfold show_result.
    destruct (readAsDataURL_loads env (new_File _ _ _)); reflexivity.
  - assert (Ht : file_type (new_File resizedBlob (file_name file) "image/jpeg")
                 = "image/jpeg") by (destruct resizedBlob; reflexivity).
    unfold formSchema. rewrite Ht.
    change (includes supported_types "image/jpeg") with true.
    rewrite app_nil_r. split.
    + destruct (N.leb_spec
                  (file_size (new_File resizedBlob (file_name file)
                                       "image/jpeg")) MAX_FILE_SIZE)
        as [Hle | Hgt].
      * split; [intros _; exact Hle | reflexivity].
      * split; [discriminate | intros Hle].
        exfalso. apply (proj1 (N.lt_nge _ _) Hgt). exact Hle.
    + intros ->. reflexivity.
Qed.

Lemma same_inputs_refl (st : State num) : same_inputs st st.
Proof. repeat split. Qed.

Lemma processImage_undefined_outputs (st : State num) :
  outputs (fst (processImage_undefined type_error st)) = outputs st \/
  outputs (fst (processImage_undefined type_error st))
  = (None, None, {| cover_image := None; cover_image_error := None |}).
Proof.
  unfold processImage_undefined.
  destruct (completedCrop st); [| left; reflexivity].
  destruct (imgRef st); [right | left]; reflexivity.
Qed.

(** X10.  After a run in which the promise of a stage was rejected the
    form holds no file, so the next press of the button, in whatever
    environment, throws on [file.name] before any stage is called: it
    only logs the error and clears the outputs again.  An [onDrop] whose
    read fails leaves the form empty.  The button runs [processImage] on
    a file again once one is back in the form: after [onDrop] has read a
    dropped file, or after the file input's [onChange], whether the read
    it starts succeeds or not. *)
Theorem failed_run_blocks_retry (env' : Env num) file st reason :
  stage_rejected env file st reason ->
  let failed := fst (processImage env file st) in
  apply_onClick env' type_error failed
  = (form_resetField
       (setCompressedSize None
          (setCompressedPreview None
             (emit (ConsoleError "Error processing image:" type_error)
                   failed))),
     Resolved tt) /\
  (forall dropped rest,
     readAsDataURL_loads env' dropped = false ->
     cover_image
       (form (fst (onDrop env' blob_error (dropped :: rest) failed)))
     = None) /\
  (forall dropped rest,
     readAsDataURL_loads env' dropped = true ->
     apply_onClick env' type_error
       (fst (onDrop env' blob_error (dropped :: rest) failed))
     = processImage env' dropped
         (fst (onDrop env' blob_error (dropped :: rest) failed))) /\
  (forall chosen rest,
     apply_onClick env' type_error
       (fst (input_onChange env' blob_error (chosen :: rest) failed))
     = processImage env' chosen
         (fst (input_onChange env' blob_error (chosen :: rest) failed))).
Proof.
  intros Hfail failed.
  destruct (stage_rejected_caught Hfail)
    as (mid & image & completed & Hc & Hi & _ & Hst).
  pose proof (stages_keep_inputs env image completed file
                (compression_options st)
                (targetWidth st) (targetHeight st) st) as Hin.
  rewrite Hst in Hin. cbn [fst] in Hin.
  destruct Hin as (_ & _ & _ & _ & _ & Hc' & Hi').
  unfold failed. rewrite (processImage_caught env file st Hc Hi Hst).
  cbn [fst]. split; [| split; [| split]].
  - unfold apply_onClick. cbn [form form_resetField set_form cover_image].
    unfold processImage_undefined.
    cbn [completedCrop imgRef form_resetField set_form setCompressedSize
         setCompressedPreview emit].
    rewrite Hc', Hc, Hi', Hi. reflexivity.
  - intros dropped rest Hload. unfold onDrop. rewrite Hload. reflexivity.
  - intros dropped rest Hload. unfold onDrop. rewrite Hload.
    unfold apply_onClick. reflexivity.
  - intros chosen rest. unfold input_onChange, onDrop.
    destruct (readAsDataURL_loads env' chosen); unfold apply_onClick;
      reflexivity.
Qed.


(** Two runs that read the same inputs and the same file name do the
    same to the outputs: both keep them, both clear them, or both
    publish the same file. *)
Lemma two_runs file file' (st st' : State num) :
  file_name file' = file_name file ->
  same_inputs st st' ->
  (outputs (fst (processImage env file st)) = outputs st /\
   outputs (fst (processImage env file' st')) = outputs st') \/
  (outputs (fst (processImage env file st))
   = (None, None, {| cover_image := None; cover_image_error := None |}) /\
   outputs (fst (processImage env file' st'))
   = (None, None, {| cover_image := None; cover_image_error := None |})) \/
  (exists out,
     file_name out = file_name file /\
     form (fst (processImage env file st))
     = {| cover_image := Some out; cover_image_error := None |} /\
     form (fst (processImage env file' st'))
     = {| cover_image := Some out; cover_image_error := None |} /\
     ((compressedPreview (fst (processImage env file st))
       = Some (dataURL out) /\
       compressedSize (fst (processImage env file st))
       = Some (file_size out) /\
       compressedPreview (fst (processImage env file' st'))
       = Some (dataURL out) /\
       compressedSize (fst (processImage env file' st'))
       = Some (file_size out)) \/
      (compressedPreview (fst (processImage env file st))
       = compressedPreview st /\
       compressedSize (fst (processImage env file st)) = compressedSize st /\
       compressedPreview (fst (processImage env file' st'))
       = compressedPreview st' /\
       compressedSize (fst (processImage env file' st'))
       = compressedSize st'))).
Proof.
  intros Hname (_ & _ & Hw & Hh & _ & Hc & Hi).
  unfold processImage, compression_options. rewrite Hc, Hi, Hw, Hh.
  destruct (completedCrop st) as [completed |];
    [| left; split; reflexivity].
  destruct (imgRef st) as [image |]; [| left; split; reflexivity].
  unfold try_catch, stages, await. rewrite Hname, !cropImage_eq.
  destruct (toBlob_bytes env _ _ _) as [n |];
    [| right; left; split; reflexivity].
  unfold compress.
  destruct (imageCompression env _ _) as [compressed | reason |];
    [| right; left; split; reflexivity | left; split; reflexivity].
  unfold resizeImage.
  destruct (readAsDataURL_loads env compressed);
    [| right; left; split; reflexivity].
  destruct (decode _) as [size |]; [| right; left; split; reflexivity].
  unfold img_onload.
  destruct (resize_getContext env); [| left; split; reflexivity].
  rewrite !toBlob_eq. cbn [canvasRef emit set_canvas].
  rewrite (paint_eq _ _ _ (canvasRef st)), (paint_eq _ _ _ (canvasRef st')).
  unfold exec, show_result.
  right; right. eexists. split; [| split; [| split]].
  4:{ destruct (readAsDataURL_loads env (new_File _ _ _));
        [left | right]; repeat split. }
  - destruct (blob_of env _ _ _); reflexivity.
  - destruct (readAsDataURL_loads env (new_File _ _ _)); reflexivity.
  - destruct (readAsDataURL_loads env (new_File _ _ _)); reflexivity.
Qed.

Lemma rerun_outputs file file' (st : State num) :
  file_name file' = file_name file ->
  outputs (fst (processImage env file' (fst (processImage env file st))))
  = outputs (fst (processImage env file st)).
Proof.
  intros Hname.
  destruct (@two_runs file file' st (fst (processImage env file st)) Hname
              (run_keeps_inputs env file st))
    as [[_ H] | [[H1 H2] | (out & _ & F1 & F2 & [(P1 & S1 & P2 & S2)
                                               | (_ & _ & P2 & S2)])]].
  - exact H.
  - rewrite H1, H2. reflexivity.
  - unfold outputs. rewrite F1, F2, P1, S1, P2, S2. reflexivity.
  - unfold outputs. rewrite F1, F2, P2, S2. reflexivity.
Qed.

(** X12.  Running [processImage] again, on a file of the same name, with
    the crop, the targets and the environment as they were, leaves the
    previews, the sizes and the form as the first run left them. *)
Theorem processImage_again_shows_the_same file file' (st : State num) :
  file_name file' = file_name file ->
  outputs (fst (processImage env file' (fst (processImage env file st))))
  = outputs (fst (processImage env file st)).
Proof. exact (@rerun_outputs file file' st). Qed.

(** X13.  Pressing "Apply Crop and Compress" twice shows what pressing it
    once shows, whatever the first press did: published a file, cleared
    the outputs after a failure, or returned at the guard. *)
Theorem apply_twice_shows_the_same (st : State num) :
  outputs (fst (apply_onClick env type_error
                  (fst (apply_onClick env type_error st))))
  = outputs (fst (apply_onClick env type_error st)).
Proof.
  unfold apply_onClick at 2 3.
  destruct (cover_image (form st)) as [file |] eqn:Hf.
  - (* the form holds a file *)
    unfold apply_onClick.
    destruct (cover_image (form (fst (processImage env file st))))
      as [file2 |] eqn:Hf2.
    + apply rerun_outputs.
      destruct (@two_runs file file st st eq_refl (same_inputs_refl st))
        as [[H _] | [[H _] | (out & Hn & F & _)]].
      * unfold outputs in H. injection H as _ _ H.
        rewrite H, Hf in Hf2. injection Hf2 as <-. reflexivity.
      * unfold outputs in H. injection H as _ _ H.
        rewrite H in Hf2. discriminate.
      * rewrite F in Hf2. injection Hf2 as <-. exact Hn.
    + destruct (processImage_undefined_outputs
                  (fst (processImage env file st))) as [H | H];
        [exact H |].
      rewrite H.
      destruct (@two_runs file file st st eq_refl (same_inputs_refl st))
        as [[H' _] | [[H' _] | (out & Hn & F & _)]].
      * unfold outputs in H'. injection H' as _ _ H'.
        rewrite H', Hf in Hf2. discriminate.
      * symmetry. exact H'.
      * rewrite F in Hf2. discriminate.
  - (* the form holds none *)
    unfold processImage_undefined.
    destruct (completedCrop st) as [completed |] eqn:Hc.
    2:{ cbn [fst resolve]. unfold apply_onClick. rewrite Hf.
        unfold processImage_undefined. rewrite Hc. reflexivity. }
    destruct (imgRef st) as [image |] eqn:Hi.
    2:{ cbn [fst resolve]. unfold apply_onClick. rewrite Hf.
        unfold processImage_undefined. rewrite Hc, Hi. reflexivity. }
    unfold apply_onClick, processImage_undefined. cbn. rewrite Hc, Hi.
    reflexivity.
Qed.

(** X17.  A run that never settles, because [imageCompression] never
    does or because the shared canvas has no context, shows nothing new
    and clears nothing: the previews, the sizes and the form stay as
    they were. *)
Theorem unsettled_run_changes_no_output file (st : State num) :
  snd (processImage env file st) = Pending ->
  same_outputs st (fst (processImage env file st)).
Proof.
  unfold processImage.
  destruct (completedCrop st) as [completed |]; [| discriminate].
  destruct (imgRef st) as [image |]; [| discriminate].
  unfold try_catch, stages, await. rewrite !cropImage_eq.
  destruct (toBlob_bytes env _ _ _) as [n |]; [| discriminate].
  unfold compress.
  destruct (imageCompression env _ _) as [compressed | reason |];
    [| discriminate | intros _; repeat split].
  unfold resizeImage.
  destruct (readAsDataURL_loads env compressed); [| discriminate].
  destruct (decode _) as [size |]; [| discriminate].
  unfold img_onload.
  destruct (resize_getContext env); [| intros _; repeat split].
  rewrite !toBlob_eq. unfold exec, show_result.
  destruct (readAsDataURL_loads env (new_File _ _ _)); discriminate.
Qed.

End More_properties.

(** ** Concrete runs of the rest of the component *)

Section More_concrete_runs.

Local Open Scope string_scope.
Local Open Scope float_scope.

(** X5 on the photo and on the file of the same name the form holds
    after one run. *)
Lemma processImage_reads_only_the_name_witness :
  processImage Run.browser Run.photo Run.cropped_state
  = processImage Run.browser Run.processed_file Run.cropped_state.
Proof.
  apply processImage_reads_only_the_name. reflexivity.
Defined.

(** X6 on a crop box of no height. *)
Lemma rejected_crop_stops_the_run_witness :
  events (fst (processImage Run.browser Run.photo Cases.flat_state))
  = (events Cases.flat_state ++
     [ToBlob (crop_canvas Run.browser Run.displayed Run.flat_crop)
             "image/jpeg" (of_Z 1);
      ConsoleError "Error processing image:" (Error "Canvas is empty")])%list
  /\
  canvasRef (fst (processImage Run.browser Run.photo Cases.flat_state))
  = canvasRef Cases.flat_state.
Proof.
  apply (rejected_crop_stops_the_run Run.browser Run.photo Cases.flat_state
           (image := Run.displayed) (completed := Run.flat_crop));
    reflexivity.
Defined.

(** X7 with a compression package that fails. *)
Lemma rejected_compression_stops_the_run_witness :
  canvasRef (fst (processImage Run.browser_failing_compression Run.photo
                               Run.cropped_state))
  = canvasRef Run.cropped_state.
Proof.
  apply (rejected_compression_stops_the_run
           Run.browser_failing_compression Run.photo Run.cropped_state
           (image := Run.displayed) (completed := Run.full_frame)
           (n := 48000%N)
           (reason := CompressionError "The file given is not an image"));
    reflexivity.
Defined.

(** X8 on the photo: the read succeeds. *)
Lemma published_result_witness :
  form (fst (processImage Run.browser Run.photo Run.cropped_state))
  = {| cover_image := Some Run.processed_file; cover_image_error := None |}
  /\
  compressedPreview (fst (processImage Run.browser Run.photo
                                       Run.cropped_state))
  = Some (dataURL Run.processed_file) /\
  compressedSize (fst (processImage Run.browser Run.photo Run.cropped_state))
  = Some 48000%N.
Proof.
  edestruct (published_result Run.browser Run.photo Run.cropped_state
               (image := Run.displayed) (completed := Run.full_frame))
    as [F P];
    [reflexivity | reflexivity | vm_compute; reflexivity
     | vm_compute; reflexivity | vm_compute; reflexivity |].
  split; [exact F | exact P].
Defined.

(** X9 with target height 0: the file built from [null] passes. *)
Lemma published_result_passes_formSchema_witness :
  exists output,
    cover_image (form (fst (processImage Run.browser Run.photo
                                         Run.zero_height_state)))
    = Some output /\
    formSchema output = [].
Proof.
  assert (H : exists output,
             cover_image (form (fst (processImage Run.browser Run.photo
                                                  Run.zero_height_state)))
             = Some output /\
             (formSchema output = [] <->
              (file_size output <= MAX_FILE_SIZE)%N) /\
             (@None (Blob float) = None -> formSchema output = [])).
  { eapply (published_result_passes_formSchema Run.browser Run.photo
              Run.zero_height_state
              (image := Run.displayed) (completed := Run.full_frame));
      [reflexivity | reflexivity | vm_compute; reflexivity
       | vm_compute; reflexivity | vm_compute; reflexivity]. }
  destruct H as (output & Hform & _ & Hnull).
  exists output. split; [exact Hform | exact (Hnull eq_refl)].
Defined.

(** X10 after a failed compression: the retry in a browser where
    everything works only logs the TypeError; once the photo has been
    chosen again in the file input the button processes it. *)
Lemma failed_run_blocks_retry_witness :
  let failed :=
    fst (processImage Run.browser_failing_compression Run.photo
                      Run.cropped_state) in
  apply_onClick Run.browser Cases.type_error failed
  = (form_resetField
       (setCompressedSize None
          (setCompressedPreview None
             (emit (ConsoleError "Error processing image:" Cases.type_error)
                   failed))),
     Resolved tt) /\
  apply_onClick Run.browser Cases.type_error
    (fst (input_onChange Run.browser Cases.blob_error [Run.photo] failed))
  = processImage Run.browser Run.photo
      (fst (input_onChange Run.browser Cases.blob_error [Run.photo] failed)).
Proof.
  intros failed.
  assert (Hfail : stage_rejected Run.browser_failing_compression Run.photo
                    Run.cropped_state
                    (CompressionError "The file given is not an image"))
    by (eapply compress_rejected; reflexivity).
  destruct (failed_run_blocks_retry Cases.type_error Cases.blob_error
              Run.browser Hfail) as (Hretry & _ & _ & Hchosen).
  split; [exact Hretry | exact (Hchosen Run.photo [])].
Defined.


(** X12 on the photo, then on the file the form holds. *)
Lemma processImage_again_shows_the_same_witness :
  outputs (fst (processImage Run.browser Run.processed_file
                             Run.processed_state))
  = outputs Run.processed_state.
Proof.
  apply (processImage_again_shows_the_same Run.browser Run.photo
           Run.processed_file Run.cropped_state).
  reflexivity.
Defined.

(** X17 after one successful run, with a compression package that
    never settles: the result of the first run stays on the page. *)
Lemma unsettled_run_changes_no_output_witness :
  same_outputs Run.processed_state
    (fst (processImage Cases.browser_hanging_compression Run.processed_file
                       Run.processed_state)).
Proof.
  apply unsettled_run_changes_no_output. reflexivity.
Defined.

End More_concrete_runs.
